(** * GitWeb: the Git Smart HTTP bridge of [gitweb.py]

    A shallow embedding of [FileWrapper], [GitRepository] and [GitDirectory]
    (file [gitweb.py]) together with the properties of the protocol bridge:
    path containment, command whitelisting, pkt-line framing of the service
    advertisement, the bounded request-body reader and the mapping of
    failures to HTTP statuses.

    The module is Python 3 code ([log = print] is an expression there), so
    [str] is text, [EnvironmentError], [IOError] and [socket.error] are all
    aliases of [OSError], and ['%s' % b'..'] prints the [repr] of the bytes
    object. *)

From Stdlib Require Import ZArith NArith Ascii String HexString Lia.
From stdpp Require Import base strings list gmap.

Local Open Scope Z_scope.

(** ** Python string operations used by [gitweb.py] *)

Module Py.

(** [s.startswith(p)] *)
Definition startswith (p s : string) : bool := String.prefix p s.

(** [sub in s] on [str]: [sub] occurs somewhere in [s]. *)
Fixpoint contains (sub s : string) : bool :=
  String.prefix sub s
  || match s with
     | EmptyString => false
     | String _ s' => contains sub s'
     end.

(** [s.endswith(suf)] *)
Definition endswith (suf s : string) : bool :=
  let n := String.length s in
  let m := String.length suf in
  (m <=? n)%nat && String.eqb (String.substring (n - m) m s) suf.

(** [s[n:]] for a non-negative literal [n]. *)
Fixpoint slice_from (n : nat) (s : string) : string :=
  match n, s with
  | O, _ => s
  | S _, EmptyString => EmptyString
  | S n', String _ s' => slice_from n' s'
  end.

Definition slash : ascii := "/"%char.

(** [s.lstrip('/')] *)
Fixpoint lstrip_slash (s : string) : string :=
  match s with
  | String c s' => if Ascii.eqb c slash then lstrip_slash s' else s
  | EmptyString => EmptyString
  end.

(** [s.rstrip('/')] *)
Fixpoint rstrip_slash (s : string) : string :=
  match s with
  | EmptyString => EmptyString
  | String c s' =>
      let r := rstrip_slash s' in
      if Ascii.eqb c slash && String.eqb r EmptyString then EmptyString
      else String c r
  end.

(** [s.strip('/')]: every leading and every trailing slash removed. *)
Definition strip_slash (s : string) : string := lstrip_slash (rstrip_slash s).

(** [c.lower()] on the ASCII range; the five marker names of a bare
    repository are ASCII and no other code point lowers to an ASCII letter
    occurring in them, so bytes above 127 are left alone. *)
Definition lower_ascii (c : ascii) : ascii :=
  let n := N_of_ascii c in
  if ((65 <=? n) && (n <=? 90))%N then ascii_of_N (n + 32) else c.

(** [s.lower()] *)
Fixpoint lower (s : string) : string :=
  match s with
  | EmptyString => EmptyString
  | String c s' => String (lower_ascii c) (lower s')
  end.

(** [fill * k] for a one-character [fill]. *)
Fixpoint replicate_char (k : nat) (fill : ascii) : string :=
  match k with
  | O => EmptyString
  | S k' => String fill (replicate_char k' fill)
  end.

(** [s.rjust(width, fill)]: pads on the left, never truncates. *)
Definition rjust (width : nat) (fill : ascii) (s : string) : string :=
  String.append (replicate_char (width - String.length s) fill) s.

(** [hex(n)] for [n >= 0]: ["0x"] and the lowercase digits. *)
Definition hex (n : Z) : string := HexString.of_Z n.

(** [len(s)] *)
Definition len (s : string) : Z := Z.of_nat (String.length s).

(** [os.path.join(a, b)] of [posixpath]. *)
Definition path_join (a b : string) : string :=
  if startswith "/" b then b
  else if String.eqb a EmptyString || endswith "/" a then String.append a b
  else String.append a (String slash b).

(** [x in l] for a list of strings. *)
Definition in_list (x : string) (l : list string) : bool :=
  bool_decide (x ∈ l).

End Py.

(** ** The pkt-line service advertisement of [inforefs] *)

Module PktLine.

(** ['# service=%s' % git_command] *)
Definition smart_server_advert (git_command : string) : string :=
  String.append "# service=" git_command.

(** [hex(len(payload)+4)[2:].rjust(4,'0')] *)
Definition length_prefix (payload : string) : string :=
  Py.rjust 4 "0" (Py.slice_from 2 (Py.hex (Py.len payload + 4))).

(** The only element of [starting_values]:
    [str(hex(len(a)+4)[2:].rjust(4,'0') + a + '0000')]. *)
Definition frame (payload : string) : string :=
  String.append (length_prefix payload) (String.append payload "0000").

(** The frame the specification describes: the length counts one newline
    more, and the newline sits between payload and flush marker. *)
Definition spec_frame (payload : string) : string :=
  String.append
    (Py.rjust 4 "0" (Py.slice_from 2 (Py.hex (Py.len payload + 5))))
    (String.append payload (String "010" "0000")).

End PktLine.

(** ** Exceptions and results *)

(** The Python exceptions the bridge raises, catches or lets through. *)
Inductive Exn : Type :=
| HTTPException (status : Z)   (* a raised [webob.exc] status object *)
| KeyError (key : string)
| AssertionError (msg : string)
| OSError (arg : string)       (* also EnvironmentError, IOError, socket.error *)
| AttributeError
| UnboundLocalError.

Inductive Result (A : Type) : Type :=
| Ret (a : A)
| Raise (e : Exn).
Arguments Ret {A} a.
Arguments Raise {A} e.

Definition is_Ret {A} (r : Result A) : bool :=
  match r with Ret _ => true | Raise _ => false end.

(** ** The request body stream and [FileWrapper] *)

Module FileWrapper.

(** [wsgi.input]: the bytes the transport still holds, whether the
    transport is broken (a read raises [socket.error]), and the sizes of
    the [read] calls made on it so far. *)
Record Stream : Type := mkStream {
  pending : list Byte.byte;
  broken : bool;
  reads : list Z
}.

(** [fd.read(size)] of a file-like object: a negative size reads
    everything that is left. *)
Definition fd_read (size : Z) (s : Stream) : Result (list Byte.byte) * Stream :=
  let log := reads s ++ [size] in
  if broken s then (Raise (OSError "socket.error"), mkStream (pending s) true log)
  else if size <? 0 then (Ret (pending s), mkStream [] false log)
  else (Ret (take (Z.to_nat size) (pending s)),
        mkStream (drop (Z.to_nat size) (pending s)) false log).

Record t : Type := mk {
  fd : Stream;
  content_length : Z;
  remain : Z
}.

(** [FileWrapper.__init__] *)
Definition init (fd : Stream) (content_length : Z) : t :=
  mk fd content_length content_length.

(** [FileWrapper.read]; [None] is Python's [None]. The first branch turns
    [socket.error] into [IOError] before [remain] is updated; the second
    lets it through. *)
Definition read (size : Z) (self : t) : Result (option (list Byte.byte)) * t :=
  if size <=? remain self then
    match fd_read size (fd self) with
    | (Ret data, fd') =>
        (Ret (Some data), mk fd' (content_length self) (remain self - size))
    | (Raise _, fd') =>
        (Raise (OSError "IOError"), mk fd' (content_length self) (remain self))
    end
  else if negb (remain self =? 0) then
    match fd_read (remain self) (fd self) with
    | (Ret data, fd') => (Ret (Some data), mk fd' (content_length self) 0)
    | (Raise e, fd') => (Raise e, mk fd' (content_length self) (remain self))
    end
  else (Ret None, self).

(** Modelled from the spec: the input pump of the Process I/O Bridge
    (module [subprocessio], which is not among the sources). It reads
    chunks of a fixed block size and forwards them to the standard input
    of the process until a read yields nothing ([None] or no bytes) or
    fails. The result is everything that was forwarded. *)
Fixpoint pump (fuel : nat) (block : Z) (src : t) : list Byte.byte * t :=
  match fuel with
  | O => ([], src)
  | S fuel' =>
      match read block src with
      | (Ret (Some (b :: data)), src') =>
          let '(rest, src'') := pump fuel' block src' in
          (b :: data ++ rest, src'')
      | (_, src') => ([], src')
      end
  end.

(** The pump run until it stops: with a positive block size every round
    but the last lowers [remain] by at least one. *)
Definition forward (block : Z) (src : t) : list Byte.byte * t :=
  pump (S (Z.to_nat (remain src))) block src.

End FileWrapper.

(** What [backend] and [inforefs] hand to the process as standard input. *)
Inductive InputStream : Type :=
| NoInput
| RawInput (fd : FileWrapper.Stream)
| BoundedInput (w : FileWrapper.t).

(** ** The world outside the interpreter *)

(** Effects that leave the interpreter. *)
Inductive Event : Type :=
| Spawned (cmd : string) (stdin : InputStream)   (* a process was started *)
| ShellCall (cmd : string).                      (* [subprocess.call(cmd, shell=True)] *)

(** The directories of the file system with the names of their entries
    ([os.listdir]), and the effects performed so far. A path that is absent
    is not a directory. *)
Record State : Type := mkState {
  dirs : gmap string (list string);
  trace : list Event
}.

(** A started process: the chunks it writes to standard output and the
    status it eventually exits with. *)
Record Proc : Type := mkProc {
  p_stdout : list string;
  p_exit : Z
}.

(** The operating system as the bridge sees it.
    - [realpath]: [os.path.realpath], symbolic links and [..] resolved;
    - [popen cmd]: starting [cmd] through the Process I/O Bridge; [None] when
      the executable cannot be started;
    - [shell cmd d]: exit status of [sh -c cmd] and the directories it
      leaves behind. *)
Record Env : Type := mkEnv {
  realpath : string → string;
  popen : string → option Proc;
  shell : string → gmap string (list string) → Z * gmap string (list string)
}.

(** ** A state and exception monad *)

Definition M (A : Type) : Type := State → Result A * State.

Definition ret {A} (a : A) : M A := fun st => (Ret a, st).
Definition raise {A} (e : Exn) : M A := fun st => (Raise e, st).
Definition bind {A B} (m : M A) (k : A → M B) : M B :=
  fun st =>
    match m st with
    | (Ret a, st') => k a st'
    | (Raise e, st') => (Raise e, st')
    end.

Declare Scope py_scope.
Delimit Scope py_scope with py.
Notation "'let*' x := m 'in' k" := (bind m (fun x => k))
  (at level 10, x name, m at level 200, k at level 200, only parsing) : py_scope.
Local Open Scope py_scope.

(** [try: m except EnvironmentError: raise e'] *)
Definition except_OSError {A} (m : M A) (e' : Exn) : M A :=
  fun st =>
    match m st with
    | (Raise (OSError _), st') => (Raise e', st')
    | r => r
    end.

(** [os.listdir(path)] *)
Definition listdir (path : string) : M (list string) :=
  fun st =>
    match dirs st !! path with
    | Some names => (Ret names, st)
    | None => (Raise (OSError path), st)
    end.

(** [os.path.isdir(path)] *)
Definition isdir (path : string) : M bool :=
  fun st => (Ret (bool_decide (is_Some (dirs st !! path))), st).

(** What [os.makedirs] does is decided by the file system: it makes the
    directory together with every parent that is missing, or it raises
    [OSError] (a regular file in the way, a parent that is no directory, no
    permission), possibly after some parents were made. [os_makedirs path d]
    tells whether the call on the directories [d] comes back, and the
    directories it leaves in either case. *)
Definition Makedirs : Type :=
  string → gmap string (list string) → bool * gmap string (list string).

(** [os.makedirs(path)] *)
Definition makedirs (os_makedirs : Makedirs) (path : string) : M unit :=
  fun st =>
    let '(ok, d) := os_makedirs path (dirs st) in
    (if ok then Ret tt else Raise (OSError path), mkState d (trace st)).

(** [subprocess.call(cmd, shell=True)]: runs to completion and returns the
    exit status. *)
Definition subprocess_call (env : Env) (cmd : string) : M Z :=
  fun st =>
    let '(rc, d) := shell env cmd (dirs st) in
    (Ret rc, mkState d (trace st ++ [ShellCall cmd])).

(** Modelled from the spec: [subprocessio.SubprocessIOChunker] (not among
    the sources), the Process I/O Bridge of section 6. Starting the
    executable either fails with an environment error, and then nothing was
    started, or yields the output sequence: the pre-seeded starting values
    followed by what the process writes, however the process ends. *)
Definition SubprocessIOChunker (env : Env) (cmd : string)
    (inputstream : InputStream) (starting_values : list string) : M (list string) :=
  fun st =>
    match popen env cmd with
    | None => (Raise (OSError cmd), st)
    | Some p =>
        (Ret (starting_values ++ p_stdout p),
         mkState (dirs st) (trace st ++ [Spawned cmd inputstream]))
    end.

(** ** Requests and responses (webob) *)

(** The WSGI environment behind a [webob.Request]:
    - [path_info]: [PATH_INFO];
    - [GET]: the query parameters, [GET !! k] being [request.GET[k]];
    - [accept]: [offer in request.accept] for a media type [offer];
    - [CONTENT_LENGTH]: the declared body length when the key is present;
    - [wsgi_input]: the body stream. *)
Record Request : Type := mkRequest {
  path_info : string;
  GET : gmap string string;
  accept : string → bool;
  CONTENT_LENGTH : option Z;
  wsgi_input : FileWrapper.Stream
}.

(** A response as the server sees it: a [webob.exc] status object called as
    a WSGI application, or a [Response()] (status 200) with its content type
    and body iterator. *)
Inductive Response : Type :=
| HTTPError (status : Z)
| Streamed (content_type : string) (app_iter : list string).

Definition status_code (r : Response) : Z :=
  match r with
  | HTTPError s => s
  | Streamed _ _ => 200
  end.

Definition HTTPForbidden : Z := 403.
Definition HTTPNotFound : Z := 404.
Definition HTTPMethodNotAllowed : Z := 405.
Definition HTTPExpectationFailed : Z := 417.
Definition HTTPInternalServerError : Z := 500.

(** The part of [s] before its first slash. *)
Fixpoint first_segment (s : string) : string :=
  match s with
  | EmptyString => EmptyString
  | String c s' => if Ascii.eqb c Py.slash then EmptyString else String c (first_segment s')
  end.

(** [request.path_info_pop()] of webob: [None] on an empty path; otherwise
    the leading slashes are skipped, the first segment is returned and
    removed from [PATH_INFO] of the shared environment. *)
Definition path_info_pop (r : Request) : option string * Request :=
  match path_info r with
  | EmptyString => (None, r)
  | _ =>
      let path := Py.lstrip_slash (path_info r) in
      let seg := first_segment path in
      (Some seg,
       mkRequest (Py.slice_from (String.length seg) path)
                 (GET r) (accept r) (CONTENT_LENGTH r) (wsgi_input r))
  end.

(** [d[k]] on a mapping *)
Definition getitem (d : gmap string string) (k : string) : M string :=
  match d !! k with
  | Some v => ret v
  | None => raise (KeyError k)
  end.

Definition dquote : string := String "034" EmptyString.

(** ** [GitRepository]: the two Smart HTTP endpoints of one repository *)

Module GitRepository.

Definition git_folder_signature : gset string :=
  list_to_set ["config"; "head"; "info"; "objects"; "refs"].

Definition commands : list string := ["git-upload-pack"; "git-receive-pack"].

Record t : Type := mk {
  content_path : string;
  valid_accepts : list string
}.

(** [GitRepository.__init__]: the lowercased entry names of the directory
    must cover the signature. *)
Definition init (content_path : string) : M t :=
  let* names := listdir content_path in
  let files : gset string := list_to_set (Py.lower <$> names) in
  if decide (git_folder_signature ∩ files = git_folder_signature)
  then ret (mk content_path
              ((fun c => String.append "application/x-" (String.append c "-result"))
                 <$> commands))
  else raise (AssertionError content_path).

(** [r'git %s --stateless-rpc --advertise-refs "%s"' % (git_command[4:], self.content_path)] *)
Definition inforefs_command (self : t) (git_command : string) : string :=
  String.append "git "
    (String.append (Py.slice_from 4 git_command)
       (String.append " --stateless-rpc --advertise-refs "
          (String.append dquote (String.append (content_path self) dquote)))).

(** [r'git %s --stateless-rpc "%s"' % (git_command[4:], self.content_path)] *)
Definition backend_command (self : t) (git_command : string) : string :=
  String.append "git "
    (String.append (Py.slice_from 4 git_command)
       (String.append " --stateless-rpc "
          (String.append dquote (String.append (content_path self) dquote)))).

(** [u'git --git-dir "%s" update-server-info' % self.content_path] *)
Definition update_server_info_command (self : t) : string :=
  String.append "git --git-dir "
    (String.append dquote
       (String.append (content_path self)
          (String.append dquote " update-server-info"))).

(** ['%s' % s.encode('utf8')] in Python 3, for text made of printable ASCII
    without quote or backslash, as both commands are. *)
Definition bytes_repr (s : string) : string :=
  String.append "b'" (String.append s "'").

(** [GitRepository.inforefs] *)
Definition inforefs (self : t) (env : Env) (request : Request) : M Response :=
  let* git_command := getitem (GET request) "service" in
  if negb (Py.in_list git_command commands) then ret (HTTPError HTTPMethodNotAllowed)
  else
    let smart_server_advert := PktLine.smart_server_advert git_command in
    let* out := except_OSError
              (SubprocessIOChunker env (inforefs_command self git_command)
                 NoInput [PktLine.frame smart_server_advert])
              (HTTPException HTTPExpectationFailed) in
    ret (Streamed
           (String.append "application/x-" (String.append git_command "-advertisement"))
           out).

(** The input stream of [backend]: [FileWrapper(environ['wsgi.input'],
    request.content_length)] when [CONTENT_LENGTH] is in the environment,
    else [environ['wsgi.input']] itself. *)
Definition backend_input (request : Request) : InputStream :=
  match CONTENT_LENGTH request with
  | Some n => BoundedInput (FileWrapper.init (wsgi_input request) n)
  | None => RawInput (wsgi_input request)
  end.

(** [GitRepository.backend] *)
Definition backend (self : t) (env : Env) (request : Request) : M Response :=
  let git_command := Py.strip_slash (path_info request) in
  if negb (Py.in_list git_command commands) then ret (HTTPError HTTPMethodNotAllowed)
  else
    let inputstream :=
      match CONTENT_LENGTH request with
      | Some n => BoundedInput (FileWrapper.init (wsgi_input request) n)
      | None => RawInput (wsgi_input request)
      end in
    let* out := except_OSError
              (SubprocessIOChunker env (backend_command self git_command) inputstream [])
              (HTTPException HTTPExpectationFailed) in
    let* _ := (if Py.in_list git_command ["git-receive-pack"]
     then subprocess_call env (update_server_info_command self)
     else ret 0) in
    ret (Streamed
           (String.append "application/x-"
              (String.append (bytes_repr git_command) "-result"))
           out).

(** The endpoint [__call__] selects; [None] when neither branch binds
    [app]. *)
Definition dispatch (self : t) (request : Request)
    : option (t → Env → Request → M Response) :=
  if Py.startswith "/info/refs" (path_info request) then Some inforefs
  else if existsb (accept request) (valid_accepts self) then Some backend
  else None.

(** [GitRepository.__call__]: a raised HTTP status object becomes the
    response, any other exception (the unbound [app] included) becomes
    Internal Server Error. *)
Definition call (self : t) (env : Env) (environ : Request) : M Response :=
  fun st =>
    match dispatch self environ with
    | None => (Ret (HTTPError HTTPInternalServerError), st)
    | Some app =>
        match app self env environ st with
        | (Ret resp, st') => (Ret resp, st')
        | (Raise (HTTPException s), st') => (Ret (HTTPError s), st')
        | (Raise _, st') => (Ret (HTTPError HTTPInternalServerError), st')
        end
    end.

End GitRepository.

(** ** [GitDirectory]: the router over a content root *)

Module GitDirectory.

(** A clone hook: called with the repository path and the request; it may
    touch the world and may raise. *)
Definition Hook : Type := string → Request → M unit.

(** The bodies of the class's [pre_clone_hook] and [post_clone_hook]:
    [pass]. *)
Definition default_hook : Hook := fun _ _ => ret tt.

(** An instance: [attrs] holds the hooks set on the instance itself. *)
Record t : Type := mk {
  content_path : string;
  auto_create : bool;
  attrs : gmap string Hook
}.

(** Attribute lookup: the instance first, then the class. *)
Definition pre_clone_hook (self : t) : Hook :=
  default default_hook (attrs self !! "pre_clone_hook").
Definition post_clone_hook (self : t) : Hook :=
  default default_hook (attrs self !! "post_clone_hook").

(** [GitDirectory.__init__] with its keyword options; [os_makedirs] is the
    file system's answer to [os.makedirs]. *)
Definition init (os_makedirs : Makedirs) (content_path : string)
    (auto_create : bool) (kwargs : gmap string Hook) : M t :=
  let* d := isdir content_path in
  let* _ := (if negb d
         then if auto_create then makedirs os_makedirs content_path
              else raise (OSError content_path)
         else ret tt) in
  let a0 : gmap string Hook := ∅ in
  let a1 := match kwargs !! "pre_clone_hook" with
            | Some h => <["pre_clone_hook" := h]> a0
            | None => a0
            end in
  let a2 := match kwargs !! "post_clone_hook" with
            | Some h => <["pre_clone_hook" := h]> a1
            | None => a1
            end in
  ret (mk content_path auto_create a2).

(** [u'git init --quiet --bare "%s"' % content_path] *)
Definition git_init_command (content_path : string) : string :=
  String.append "git init --quiet --bare "
    (String.append dquote (String.append content_path dquote)).

(** [self.repository_app(content_path)] followed by the call of it. *)
Definition delegate (content_path : string) (env : Env) (environ : Request)
    : M Response :=
  let* app := GitRepository.init content_path in
  GitRepository.call app env environ.

(** The body of the inner [try] on the auto-create path: an HTTP status
    raised by a hook is returned as the response. *)
Definition create (self : t) (env : Env) (content_path : string)
    (request : Request) : M Response :=
  fun st =>
    match (let* _ := pre_clone_hook self content_path request in
           let* _ := subprocess_call env (git_init_command content_path) in
           post_clone_hook self content_path request) st with
    | (Ret _, st') => delegate content_path env request st'
    | (Raise (HTTPException s), st') => (Ret (HTTPError s), st')
    | (Raise e, st') => (Raise e, st')
    end.

(** [GitDirectory.__call__] *)
Definition call (self : t) (env : Env) (environ : Request) : M Response :=
  match path_info_pop environ with
  | (None, _) => raise AttributeError
  | (Some repo_name, request) =>
      if negb (Py.endswith ".git" repo_name) then ret (HTTPError HTTPNotFound)
      else
        let content_path :=
          realpath env (Py.path_join (content_path self) repo_name) in
        if negb (Py.contains (GitDirectory.content_path self) content_path)
        then ret (HTTPError HTTPForbidden)
        else fun st =>
          match GitRepository.init content_path st with
          | (Ret app, st') => GitRepository.call app env request st'
          | (Raise (AssertionError _ | OSError _), st') =>
              (let* d := isdir content_path in
               if d : bool then delegate content_path env request
               else if auto_create self
                       && accept request "application/x-git-receive-pack-result"
               then create self env content_path request
               else ret (HTTPError HTTPNotFound)) st'
          | (Raise e, st') => (Raise e, st')
          end
  end.

End GitDirectory.

(** ** Notions the properties are stated with *)

(** The part of [s] after its last slash. *)
Fixpoint after_last_slash (s : string) : string :=
  match s with
  | EmptyString => EmptyString
  | String c s' =>
      if Py.contains "/" s' then after_last_slash s'
      else if Ascii.eqb c Py.slash then s' else s
  end.

(** The trailing segment of a request path: its last segment, slashes that
    end the path put aside. *)
Definition trailing_segment (path : string) : string :=
  after_last_slash (Py.rstrip_slash path).

(** Containment as the specification words it: the content root is a string
    prefix of the resolved path. *)
Definition descendant (root path : string) : bool := Py.startswith root path.

(** The four markers the specification lists for a bare repository. *)
Definition spec_signature : gset string :=
  list_to_set ["config"; "head"; "objects"; "refs"].

(** A character of a lowercase hexadecimal numeral. *)
Definition lower_hex_digit (c : ascii) : bool :=
  let n := N_of_ascii c in
  (((48 <=? n) && (n <=? 57)) || ((97 <=? n) && (n <=? 102)))%N.

Fixpoint string_forallb (f : ascii → bool) (s : string) : bool :=
  match s with
  | EmptyString => true
  | String c s' => f c && string_forallb f s'
  end.

(** The value of a hexadecimal numeral without prefix. *)
Definition hex_value (s : string) : Z := Z.of_N (HexString.Raw.to_N s 0%N).

(** ** A small world to run the bridge in *)

Module Sample.

(** What [git init --bare] leaves in a fresh directory. *)
Definition bare_entries : list string :=
  ["HEAD"; "branches"; "config"; "description"; "hooks"; "info"; "objects"; "refs"].

(** Paths resolve to themselves, but for a symbolic link [evil.git] that
    points outside the root and the parent of the root. *)
Definition sample_realpath (p : string) : string :=
  if String.eqb p "/srv/git/evil.git" then "/etc"
  else if String.eqb p "/srv/git/.." then "/srv"
  else if String.eqb p "/srv/git/away.git" then "/tmp/srv/git/away.git"
  else p.

(** [git init] creates the repository; every other command leaves the
    directories alone. The status is that of a command that failed. *)
Definition sample_shell (cmd : string) (d : gmap string (list string))
    : Z * gmap string (list string) :=
  if String.eqb cmd (GitDirectory.git_init_command "/srv/git/new.git")
  then (0, <["/srv/git/new.git" := bare_entries]> d)
  else (1, d).

(** Every process starts; a push ends with the given status. *)
Definition env (push_exit : Z) : Env :=
  mkEnv sample_realpath (fun _ => Some (mkProc ["0000"] push_exit)) sample_shell.

(** No executable can be started. *)
Definition env_no_git : Env :=
  mkEnv sample_realpath (fun _ => None) sample_shell.

Definition st : State :=
  mkState
    (<["/srv/git/a.git" := bare_entries]>
       (<["/srv/git/four.git" := ["config"; "HEAD"; "objects"; "refs"] ]>
          (<["/srv/git" := ["a.git"; "four.git"] ]> ∅)))
    [].

Definition body : FileWrapper.Stream :=
  FileWrapper.mkStream [Byte.x30; Byte.x30; Byte.x30; Byte.x30; Byte.x50] false [].

Definition accepts (offers : list string) (offer : string) : bool :=
  Py.in_list offer offers.

Definition request (path : string) (query : gmap string string)
    (offers : list string) : Request :=
  mkRequest path query (accepts offers) (Some 4) body.

Definition router : GitDirectory.t := GitDirectory.mk "/srv/git" true ∅.
Definition router_no_create : GitDirectory.t := GitDirectory.mk "/srv/git" false ∅.

Definition repo : GitRepository.t :=
  GitRepository.mk "/srv/git/a.git"
    ["application/x-git-upload-pack-result"; "application/x-git-receive-pack-result"].

(** A hook that leaves its mark in the trace. *)
Definition marking_hook : GitDirectory.Hook :=
  fun path _ st => (Ret tt, mkState (dirs st) (trace st ++ [ShellCall "hook"])).

(** A hook that vetoes the creation. *)
Definition vetoing_hook : GitDirectory.Hook :=
  fun _ _ => raise (HTTPException HTTPForbidden).

End Sample.

(** ** The application factories *)

(** [make_app(global_config, content_path='', **local_config)]: a
    [content_path] in the global configuration replaces the argument; the
    local options are not looked at. *)
Definition make_app (global_config : gmap string string)
    (content_path : option string) (local_config : gmap string string)
    : M GitRepository.t :=
  let content_path := default EmptyString content_path in
  let content_path :=
    match global_config !! "content_path" with
    | Some p => p
    | None => content_path
    end in
  GitRepository.init content_path.

(** [make_dir_app(global_config, content_path='', auto_create=None,
    **local_config)]: [auto_create] is handed on as it is, [None] counting
    as false where [GitDirectory] tests it; no hook is handed on.
    [os_makedirs] is the file system's answer to [os.makedirs]. *)
Definition make_dir_app (os_makedirs : Makedirs)
    (global_config : gmap string string)
    (content_path : option string) (auto_create : option bool)
    (local_config : gmap string string) : M GitDirectory.t :=
  let content_path := default EmptyString content_path in
  let content_path :=
    match global_config !! "content_path" with
    | Some p => p
    | None => content_path
    end in
  GitDirectory.init os_makedirs content_path (default false auto_create) ∅.

(** ** More notions the properties are stated with *)

(** A caller of [FileWrapper.read]: one read per size, the data of each read
    kept, stopping at the first read that raises. *)
Fixpoint read_many (sizes : list Z) (w : FileWrapper.t)
    : list (list Byte.byte) * FileWrapper.t :=
  match sizes with
  | [] => ([], w)
  | size :: rest =>
      match FileWrapper.read size w with
      | (Ret (Some data), w') =>
          let '(ds, w'') := read_many rest w' in (data :: ds, w'')
      | (Ret None, w') => read_many rest w'
      | (Raise _, w') => ([], w')
      end
  end.

(** What a reader of pkt-lines sees. *)
Inductive Pkt : Type :=
| Flush
| Data (payload : string).

(** The reader at the other end of the advertisement: four hexadecimal
    digits give the length of the whole line, themselves included; [0000] is
    the flush packet. It returns the packet and the text after it. *)
Definition pkt_read (s : string) : option (Pkt * string) :=
  let n := Z.to_nat (hex_value (String.substring 0 4 s)) in
  if (String.length s <? 4)%nat then None
  else if (n =? 0)%nat then Some (Flush, Py.slice_from 4 s)
  else if ((n <? 4) || (String.length s <? n))%nat then None
  else Some (Data (String.substring 4 (n - 4) s), Py.slice_from n s).

(** The statuses [GitRepository.__call__] can answer with. *)
Definition handler_statuses : list Z :=
  [200; HTTPMethodNotAllowed; HTTPExpectationFailed; HTTPInternalServerError].

(** The command lines [GitRepository] starts processes with. *)
Definition handler_commands (self : GitRepository.t) : list string :=
  [GitRepository.inforefs_command self "git-upload-pack";
   GitRepository.inforefs_command self "git-receive-pack";
   GitRepository.backend_command self "git-upload-pack";
   GitRepository.backend_command self "git-receive-pack"].

Module Cases.

(** A transport that fails on every read. *)
Definition broken_body : FileWrapper.Stream :=
  FileWrapper.mkStream [Byte.x30; Byte.x31] true [].


(** A request that carries no [CONTENT_LENGTH]. *)
Definition chunked_request (path : string) (offers : list string) : Request :=
  mkRequest path ∅ (Sample.accepts offers) None Sample.body.

(** A world without the content root. *)
Definition empty_st : State := mkState ∅ [].

(** A file system on which [os.makedirs] makes the directory asked for and
    the parent [/srv] with it. *)
Definition obliging_makedirs : Makedirs :=
  fun path d => (true, <[path := []]> (<["/srv" := ["git"] ]> d)).

(** A file system on which [os.makedirs] fails, a regular file being in the
    way, and nothing is made. *)
Definition refusing_makedirs : Makedirs := fun _ d => (false, d).

(** A repository listed in another order and capitalisation, with a further
    entry and a repeated one. *)
Definition mixed_entries : list string :=
  ["Refs"; "OBJECTS"; "packed-refs"; "info"; "Head"; "config"; "CONFIG"].

Definition mixed_st : State := mkState (<["/r" := mixed_entries]> ∅) [].

(** A repository with the five markers and nothing else. *)
Definition minimal_entries : list string :=
  ["config"; "HEAD"; "info"; "objects"; "refs"].

Definition minimal_st : State := mkState (<["/m" := minimal_entries]> ∅) [].

End Cases.

(** * Properties *)

(** ** Strings *)

Lemma prefix_contains sub s : String.prefix sub s = true → Py.contains sub s = true.
Proof. destruct s; simpl; intros ->; reflexivity. Qed.

(** A descendant in the sense of the specification always passes the
    router's containment test. *)
Lemma descendant_contains root path :
  descendant root path = true → Py.contains root path = true.
Proof. apply prefix_contains. Qed.

(** ** The length prefix of a pkt-line *)

Section HexDigits.

Local Open Scope nat_scope.

Lemma size_nat_pos p : 1 ≤ Pos.size_nat p.
Proof. destruct p; simpl; lia. Qed.

(** A number of at most [4 * k] bits is written with at most [k] digits. *)
Lemma of_pos_length k : ∀ p rest,
  Pos.size_nat p ≤ 4 * k →
  String.length (HexString.Raw.of_pos p rest) ≤ k + String.length rest.
Proof.
  induction k as [|k IH]; intros p rest Hp.
  - pose proof (size_nat_pos p). lia.
  - do 4 (try destruct p as [p|p|]);
      cbn [HexString.Raw.of_pos]; simpl String.length;
      try lia;
      (etrans; [apply IH; simpl in Hp; lia | simpl; lia]).
Qed.

Lemma of_pos_lower_hex k : ∀ p rest,
  Pos.size_nat p ≤ 4 * k →
  string_forallb lower_hex_digit rest = true →
  string_forallb lower_hex_digit (HexString.Raw.of_pos p rest) = true.
Proof.
  induction k as [|k IH]; intros p rest Hp Hrest.
  - pose proof (size_nat_pos p). lia.
  - do 4 (try destruct p as [p|p|]);
      cbn [HexString.Raw.of_pos];
      try (simpl; exact Hrest);
      (apply IH; [simpl in Hp; lia | simpl; exact Hrest]).
Qed.

Lemma size_nat_below_65536 p : (p < 65536)%positive → Pos.size_nat p ≤ 16.
Proof.
  intros Hp.
  destruct (decide (p = 65535%positive)) as [->|Hne]; [simpl; lia|].
  change 16 with (Pos.size_nat 65535).
  apply Pos.size_nat_monotone. lia.
Qed.

Lemma replicate_char_length k c : String.length (Py.replicate_char k c) = k.
Proof. induction k as [|k IH]; simpl; [done | by rewrite IH]. Qed.

Lemma append_length s1 s2 :
  String.length (String.append s1 s2) = String.length s1 + String.length s2.
Proof. induction s1 as [|c s1 IH]; simpl; [done | by rewrite IH]. Qed.

Lemma forallb_append f s1 s2 :
  string_forallb f (String.append s1 s2)
  = string_forallb f s1 && string_forallb f s2.
Proof. induction s1 as [|c s1 IH]; simpl; [done|]. rewrite IH. by destruct (f c). Qed.

Lemma forallb_zeros k : string_forallb lower_hex_digit (Py.replicate_char k "0") = true.
Proof. induction k; simpl; auto. Qed.

(** Leading zeros do not change the value of a numeral. *)
Lemma to_N_zeros k s :
  HexString.Raw.to_N (String.append (Py.replicate_char k "0") s) 0%N
  = HexString.Raw.to_N s 0%N.
Proof. induction k; simpl; auto. Qed.

(** [hex(n)[2:].rjust(4,'0')] for [0 < n < 65536]: four lowercase
    hexadecimal digits whose value is [n]. *)
Lemma rjust_hex n :
  (0 < n < 65536)%Z →
  let pre := Py.rjust 4 "0" (Py.slice_from 2 (Py.hex n)) in
  String.length pre = 4
  ∧ string_forallb lower_hex_digit pre = true
  ∧ hex_value pre = n.
Proof.
  intros [Hpos Hlt]. destruct n as [|p|p]; try lia.
  assert (Hs : Pos.size_nat p ≤ 4 * 4)
    by (apply size_nat_below_65536; lia).
  pose proof (of_pos_length 4 p EmptyString Hs) as Hlen. simpl in Hlen.
  change (Py.slice_from 2 (Py.hex (Z.pos p)))
    with (HexString.Raw.of_pos p EmptyString).
  unfold Py.rjust, hex_value. cbv zeta. repeat split.
  - rewrite append_length, replicate_char_length. lia.
  - rewrite forallb_append, forallb_zeros. simpl.
    by apply (of_pos_lower_hex 4).
  - rewrite to_N_zeros, HexString.Raw.to_N_of_pos. reflexivity.
Qed.

End HexDigits.

(** C2 (as the code has it). The frame [inforefs] pre-seeds is the four
    lowercase, zero-padded hexadecimal digits of [len(payload) + 4], then the
    payload, then the flush marker [0000]: no newline is emitted and none is
    counted. Four digits suffice while the count stays below 65536, which
    covers both advertisements. *)
Theorem frame_is_prefix_payload_flush payload :
  Py.len payload + 4 < 65536 →
  ∃ pre,
    PktLine.frame payload = String.append pre (String.append payload "0000")
    ∧ String.length pre = 4%nat
    ∧ string_forallb lower_hex_digit pre = true
    ∧ hex_value pre = Py.len payload + 4.
Proof.
  intros Hlen. exists (PktLine.length_prefix payload).
  split; [reflexivity|].
  apply rjust_hex. unfold Py.len in *. lia.
Qed.

Lemma frame_is_prefix_payload_flush_witness :
  Py.len (PktLine.smart_server_advert "git-upload-pack") + 4 < 65536
  ∧ ∃ pre,
      PktLine.frame (PktLine.smart_server_advert "git-upload-pack")
      = String.append pre
          (String.append (PktLine.smart_server_advert "git-upload-pack") "0000")
      ∧ String.length pre = 4%nat
      ∧ string_forallb lower_hex_digit pre = true
      ∧ hex_value pre = Py.len (PktLine.smart_server_advert "git-upload-pack") + 4.
Proof.
  split; [reflexivity|].
  apply (frame_is_prefix_payload_flush (PktLine.smart_server_advert "git-upload-pack")).
  reflexivity.
Defined.

(** C2 as stated fails: for the advertisement of [git-upload-pack] the code
    emits [001d# service=git-upload-pack0000], while the frame with one
    newline counted and emitted would start with [001e] and carry the
    newline before the flush marker. *)
Lemma frame_differs_from_spec_frame :
  PktLine.frame (PktLine.smart_server_advert "git-upload-pack")
  = "001d# service=git-upload-pack0000"
  ∧ PktLine.spec_frame (PktLine.smart_server_advert "git-upload-pack")
    = String.append "001e# service=git-upload-pack" (String "010" "0000")
  ∧ PktLine.frame (PktLine.smart_server_advert "git-upload-pack")
    ≠ PktLine.spec_frame (PktLine.smart_server_advert "git-upload-pack").
Proof. repeat split; try reflexivity. discriminate. Qed.

(** Both advertisements, computed. *)
Example frame_upload_pack :
  PktLine.frame (PktLine.smart_server_advert "git-upload-pack")
  = "001d# service=git-upload-pack0000".
Proof. reflexivity. Qed.

Example frame_receive_pack :
  PktLine.frame (PktLine.smart_server_advert "git-receive-pack")
  = "001e# service=git-receive-pack0000".
Proof. reflexivity. Qed.

(** ** The validity check of [GitRepository.__init__] *)

Lemma signature_covered (files : gset string) :
  GitRepository.git_folder_signature ∩ files = GitRepository.git_folder_signature
  ↔ ∀ m, m ∈ ["config"; "head"; "info"; "objects"; "refs"] → m ∈ files.
Proof.
  unfold GitRepository.git_folder_signature. split.
  - intros Heq m Hm.
    apply (elem_of_list_to_set (C := gset string)) in Hm.
    rewrite <- Heq in Hm. by apply elem_of_intersection in Hm as [_ ?].
  - intros Hall. apply set_eq. intros x.
    rewrite elem_of_intersection, elem_of_list_to_set.
    split; [tauto|]. intros Hx. split; [done|]. by apply Hall.
Qed.

(** C4 (as the code has it). Construction on an existing directory succeeds
    exactly when the lowercased entry names include all five of [config],
    [head], [info], [objects] and [refs]; otherwise it fails with an
    assertion error. Neither outcome touches the world. *)
Theorem init_succeeds_iff_five_markers path names st :
  dirs st !! path = Some names →
  let covered :=
    ∀ m, m ∈ ["config"; "head"; "info"; "objects"; "refs"] → m ∈ Py.lower <$> names in
  (covered →
     GitRepository.init path st
     = (Ret (GitRepository.mk path
               ["application/x-git-upload-pack-result";
                "application/x-git-receive-pack-result"]), st))
  ∧ (¬ covered →
     GitRepository.init path st = (Raise (AssertionError path), st)).
Proof.
  intros Hdir covered.
  unfold GitRepository.init, bind, listdir. rewrite Hdir.
  assert (Hiff : GitRepository.git_folder_signature
                   ∩ list_to_set (Py.lower <$> names)
                 = GitRepository.git_folder_signature ↔ covered).
  { rewrite signature_covered. unfold covered.
    split; intros H m Hm; specialize (H m Hm);
      by apply (elem_of_list_to_set (C := gset string)). }
  split; intros Hc; case_decide as Hd; try reflexivity; tauto.
Qed.

Lemma init_succeeds_iff_five_markers_witness :
  is_Ret (fst (GitRepository.init "/srv/git/a.git" Sample.st)) = true.
Proof.
  pose proof (init_succeeds_iff_five_markers "/srv/git/a.git"
                Sample.bare_entries Sample.st eq_refl) as [Hok _].
  rewrite Hok; [reflexivity|].
  intros m Hm.
  repeat (apply elem_of_cons in Hm as [->|Hm];
          [apply (bool_decide_unpack _); vm_compute; exact I|]).
  by apply elem_of_nil in Hm.
Defined.

(** C4 as stated fails: a directory holding [config], [HEAD], [objects] and
    [refs], the four markers of the specification, but no [info], is
    rejected. *)
Lemma four_markers_rejected :
  dirs Sample.st !! "/srv/git/four.git" = Some ["config"; "HEAD"; "objects"; "refs"]
  ∧ spec_signature ⊆ list_to_set (Py.lower <$> ["config"; "HEAD"; "objects"; "refs"])
  ∧ GitRepository.init "/srv/git/four.git" Sample.st
    = (Raise (AssertionError "/srv/git/four.git"), Sample.st).
Proof.
  split; [reflexivity|]. split; [|reflexivity].
  apply (bool_decide_unpack _). vm_compute. exact I.
Qed.

(** ** The bounded input reader *)

Section BoundedReader.

Import FileWrapper.

Variables (cl : Z) (block : Z).
Hypothesis block_pos : 0 < block.

(** A read that fits into what remains is passed on as it is. *)
Lemma read_within size r pend log :
  0 ≤ size ≤ r →
  read size (mk (mkStream pend false log) cl r)
  = (Ret (Some (take (Z.to_nat size) pend)),
     mk (mkStream (drop (Z.to_nat size) pend) false (log ++ [size])) cl (r - size)).
Proof.
  intros [H0 Hr]. unfold read, fd_read. simpl.
  destruct (Z.leb_spec size r); [|lia].
  destruct (Z.ltb_spec size 0); [lia|]. reflexivity.
Qed.

(** A read beyond what remains is cut down to it. *)
Lemma read_cut size r pend log :
  0 < r < size →
  read size (mk (mkStream pend false log) cl r)
  = (Ret (Some (take (Z.to_nat r) pend)),
     mk (mkStream (drop (Z.to_nat r) pend) false (log ++ [r])) cl 0).
Proof.
  intros [H0 Hr]. unfold read, fd_read. simpl.
  destruct (Z.leb_spec size r); [lia|].
  destruct (Z.eqb_spec r 0); [lia|]. simpl.
  destruct (Z.ltb_spec r 0); [lia|]. reflexivity.
Qed.

(** Once nothing remains, a read of positive size is answered with [None]
    and the wrapper, its stream included, is left as it was. *)
Lemma read_exhausted size (w : t) :
  remain w = 0 → 0 < size → read size w = (Ret None, w).
Proof.
  intros Hr Hs. unfold read. rewrite Hr.
  destruct (Z.leb_spec size 0); [lia|]. reflexivity.
Qed.

Lemma take_nonempty {A} (n : nat) (l : list A) :
  (0 < n)%nat → (0 < length l)%nat → ∃ b data, take n l = b :: data.
Proof. destruct n, l; simpl; intros; try lia. eauto. Qed.

(** The pump forwards the first [r] bytes and stops with nothing
    remaining. *)
Lemma pump_forwards fuel : ∀ r pend log,
  0 ≤ r → r < Z.of_nat (length pend) → (Z.to_nat r < fuel)%nat →
  ∃ log',
    pump fuel block (mk (mkStream pend false log) cl r)
    = (take (Z.to_nat r) pend,
       mk (mkStream (drop (Z.to_nat r) pend) false log') cl 0).
Proof.
  induction fuel as [|fuel IH]; intros r pend log Hr Hlen Hfuel; [lia|].
  cbn [pump].
  destruct (decide (r = 0)) as [->|Hne].
  - rewrite read_exhausted by (simpl; lia). simpl. rewrite drop_0. eauto.
  - destruct (decide (block ≤ r)) as [Hle|Hgt].
    + rewrite read_within by lia.
      destruct (take_nonempty (Z.to_nat block) pend) as (b & data & Htake);
        [lia..|]. rewrite Htake.
      destruct (IH (r - block) (drop (Z.to_nat block) pend) (log ++ [block]))
        as [log' Hpump].
      * lia.
      * rewrite length_drop. lia.
      * lia.
      * rewrite Hpump. exists log'. f_equal.
        -- change (b :: data ++ ?x) with ((b :: data) ++ x).
           rewrite <- Htake, take_take_drop. f_equal. lia.
        -- rewrite drop_drop. do 3 f_equal. lia.
    + rewrite read_cut by lia.
      destruct (take_nonempty (Z.to_nat r) pend) as (b & data & Htake);
        [lia..|]. rewrite Htake.
      destruct fuel as [|fuel]; [lia|]. cbn [pump].
      rewrite read_exhausted by (simpl; lia).
      rewrite app_nil_r, <- Htake. eauto.
Qed.

End BoundedReader.

(** ** The trailing segment of a POST path *)

Lemma elem_of_commands c :
  c ∈ GitRepository.commands
  ↔ c = "git-upload-pack" ∨ c = "git-receive-pack".
Proof.
  unfold GitRepository.commands.
  rewrite !elem_of_cons, elem_of_nil. tauto.
Qed.

Lemma in_commands c :
  Py.in_list c GitRepository.commands = true
  ↔ c = "git-upload-pack" ∨ c = "git-receive-pack".
Proof.
  unfold Py.in_list. rewrite bool_decide_eq_true. apply elem_of_commands.
Qed.

Lemma append_cons c s1 s2 :
  String.append (String c s1) s2 = String c (String.append s1 s2).
Proof. reflexivity. Qed.

Lemma append_empty s : String.append EmptyString s = s.
Proof. reflexivity. Qed.

Lemma lstrip_slashes s :
  ∃ k, s = String.append (Py.replicate_char k Py.slash) (Py.lstrip_slash s).
Proof.
  induction s as [|c s [k IH]]; [by exists 0%nat|].
  simpl. destruct (Ascii.eqb_spec c Py.slash) as [->|Hne].
  - exists (S k). cbn [Py.replicate_char]. by rewrite append_cons, <- IH.
  - by exists 0%nat.
Qed.

Lemma contains_slash_cons a s :
  Py.contains "/" (String a s) = false →
  Ascii.eqb a Py.slash = false ∧ Py.contains "/" s = false.
Proof.
  cbn [Py.contains String.prefix].
  destruct (ascii_dec "/" a) as [<-|Hne]; [by destruct s|].
  intros Hs. split; [|exact Hs].
  apply Ascii.eqb_neq. intros ->. by apply Hne.
Qed.

Lemma after_last_slash_slashes k c :
  Py.contains "/" c = false →
  after_last_slash (String.append (Py.replicate_char k Py.slash) c) = c.
Proof.
  intros Hc. induction k as [|k IH].
  - cbn [Py.replicate_char]. rewrite append_empty.
    destruct c as [|a c]; [done|].
    apply contains_slash_cons in Hc as [Ha Hc]. cbn [after_last_slash].
    by rewrite Hc, Ha.
  - cbn [Py.replicate_char]. rewrite append_cons. cbn [after_last_slash].
    destruct (Py.contains "/" (String.append (Py.replicate_char k Py.slash) c))
      eqn:Hk; [done|].
    destruct k; [done|]. cbn [Py.replicate_char] in Hk.
    rewrite append_cons in Hk. by apply contains_slash_cons in Hk as [? _].
Qed.

(** A path that strips to a command has that command as trailing
    segment. *)
Lemma strip_command_trailing path :
  Py.in_list (Py.strip_slash path) GitRepository.commands = true →
  trailing_segment path = Py.strip_slash path.
Proof.
  intros Hin. unfold trailing_segment, Py.strip_slash in *.
  destruct (lstrip_slashes (Py.rstrip_slash path)) as [k Hk].
  rewrite Hk at 1. apply after_last_slash_slashes.
  apply in_commands in Hin as [-> | ->]; reflexivity.
Qed.

Example trailing_segment_nested :
  trailing_segment "/a.git/git-upload-pack/" = "git-upload-pack"
  ∧ Py.strip_slash "/a.git/git-upload-pack/" = "a.git/git-upload-pack".
Proof. split; reflexivity. Qed.

(** ** The two endpoints *)

Section Endpoints.

Variables (self : GitRepository.t) (env : Env) (request : Request) (st : State).

Lemma inforefs_missing :
  GET request !! "service" = None →
  GitRepository.inforefs self env request st = (Raise (KeyError "service"), st).
Proof.
  intros Hget. unfold GitRepository.inforefs, bind, getitem.
  by rewrite Hget.
Qed.

Lemma inforefs_rejects v :
  GET request !! "service" = Some v →
  Py.in_list v GitRepository.commands = false →
  GitRepository.inforefs self env request st
  = (Ret (HTTPError HTTPMethodNotAllowed), st).
Proof.
  intros Hget Hv. unfold GitRepository.inforefs, bind, getitem.
  rewrite Hget. unfold ret at 1. by rewrite Hv.
Qed.

Lemma inforefs_launch_failure v :
  GET request !! "service" = Some v →
  Py.in_list v GitRepository.commands = true →
  popen env (GitRepository.inforefs_command self v) = None →
  GitRepository.inforefs self env request st
  = (Raise (HTTPException HTTPExpectationFailed), st).
Proof.
  intros Hget Hv Hp. unfold GitRepository.inforefs, bind, getitem.
  rewrite Hget. unfold ret at 1. rewrite Hv. simpl.
  unfold except_OSError, SubprocessIOChunker. by rewrite Hp.
Qed.

Lemma inforefs_launched v p :
  GET request !! "service" = Some v →
  Py.in_list v GitRepository.commands = true →
  popen env (GitRepository.inforefs_command self v) = Some p →
  GitRepository.inforefs self env request st
  = (Ret (Streamed
            (String.append "application/x-" (String.append v "-advertisement"))
            (PktLine.frame (PktLine.smart_server_advert v) :: p_stdout p)),
     mkState (dirs st)
       (trace st ++ [Spawned (GitRepository.inforefs_command self v) NoInput])).
Proof.
  intros Hget Hv Hp. unfold GitRepository.inforefs, bind, getitem.
  rewrite Hget. unfold ret at 1. rewrite Hv. simpl.
  unfold except_OSError, SubprocessIOChunker. by rewrite Hp.
Qed.

Lemma backend_rejects :
  Py.in_list (Py.strip_slash (path_info request)) GitRepository.commands = false →
  GitRepository.backend self env request st
  = (Ret (HTTPError HTTPMethodNotAllowed), st).
Proof. intros Hv. unfold GitRepository.backend. by rewrite Hv. Qed.

Lemma backend_launch_failure :
  Py.in_list (Py.strip_slash (path_info request)) GitRepository.commands = true →
  popen env (GitRepository.backend_command self (Py.strip_slash (path_info request)))
  = None →
  GitRepository.backend self env request st
  = (Raise (HTTPException HTTPExpectationFailed), st).
Proof.
  intros Hv Hp. unfold GitRepository.backend. rewrite Hv. simpl.
  unfold bind, except_OSError, SubprocessIOChunker. by rewrite Hp.
Qed.

Lemma backend_upload_pack p :
  Py.strip_slash (path_info request) = "git-upload-pack" →
  popen env (GitRepository.backend_command self "git-upload-pack") = Some p →
  GitRepository.backend self env request st
  = (Ret (Streamed "application/x-b'git-upload-pack'-result" (p_stdout p)),
     mkState (dirs st)
       (trace st
        ++ [Spawned (GitRepository.backend_command self "git-upload-pack")
              (GitRepository.backend_input request)])).
Proof.
  intros Hc Hp. unfold GitRepository.backend. rewrite Hc. simpl.
  unfold bind, except_OSError, SubprocessIOChunker. by rewrite Hp.
Qed.

Lemma backend_receive_pack p :
  Py.strip_slash (path_info request) = "git-receive-pack" →
  popen env (GitRepository.backend_command self "git-receive-pack") = Some p →
  GitRepository.backend self env request st
  = (Ret (Streamed "application/x-b'git-receive-pack'-result" (p_stdout p)),
     mkState
       (snd (shell env (GitRepository.update_server_info_command self) (dirs st)))
       (trace st
        ++ [Spawned (GitRepository.backend_command self "git-receive-pack")
              (GitRepository.backend_input request);
            ShellCall (GitRepository.update_server_info_command self)])).
Proof.
  intros Hc Hp. unfold GitRepository.backend. rewrite Hc. simpl.
  unfold bind, except_OSError, SubprocessIOChunker. rewrite Hp.
  unfold subprocess_call. simpl.
  destruct (shell env _ _) as [rc d]. simpl. by rewrite <- app_assoc.
Qed.

End Endpoints.

(** ** Dispatch and failures in [GitRepository.__call__] *)

Section Call.

Variables (self : GitRepository.t) (env : Env) (request : Request) (st : State).

Lemma call_inforefs :
  Py.startswith "/info/refs" (path_info request) = true →
  GitRepository.call self env request st
  = match GitRepository.inforefs self env request st with
    | (Ret resp, st') => (Ret resp, st')
    | (Raise (HTTPException s), st') => (Ret (HTTPError s), st')
    | (Raise _, st') => (Ret (HTTPError HTTPInternalServerError), st')
    end.
Proof.
  intros Hp. unfold GitRepository.call, GitRepository.dispatch. by rewrite Hp.
Qed.

Lemma call_backend :
  Py.startswith "/info/refs" (path_info request) = false →
  existsb (accept request) (GitRepository.valid_accepts self) = true →
  GitRepository.call self env request st
  = match GitRepository.backend self env request st with
    | (Ret resp, st') => (Ret resp, st')
    | (Raise (HTTPException s), st') => (Ret (HTTPError s), st')
    | (Raise _, st') => (Ret (HTTPError HTTPInternalServerError), st')
    end.
Proof.
  intros Hp Ha. unfold GitRepository.call, GitRepository.dispatch.
  by rewrite Hp, Ha.
Qed.

End Call.

Lemma not_in_commands v :
  v ∉ GitRepository.commands → Py.in_list v GitRepository.commands = false.
Proof. intros Hv. by apply bool_decide_eq_false. Qed.

(** C3. A value outside the whitelist is answered with Method Not Allowed by
    both endpoints, and the world is as it was before: nothing was started.
    [inforefs] looks at the [service] parameter, [backend] at the trailing
    segment of the path. The handler passes the answer on unchanged. *)
Theorem unknown_command_rejected self env request st v :
  v ∉ GitRepository.commands →
  (GET request !! "service" = Some v →
     GitRepository.inforefs self env request st
     = (Ret (HTTPError HTTPMethodNotAllowed), st)
     ∧ (Py.startswith "/info/refs" (path_info request) = true →
        GitRepository.call self env request st
        = (Ret (HTTPError HTTPMethodNotAllowed), st)))
  ∧ (trailing_segment (path_info request) = v →
     GitRepository.backend self env request st
     = (Ret (HTTPError HTTPMethodNotAllowed), st)
     ∧ (Py.startswith "/info/refs" (path_info request) = false →
        existsb (accept request) (GitRepository.valid_accepts self) = true →
        GitRepository.call self env request st
        = (Ret (HTTPError HTTPMethodNotAllowed), st))).
Proof.
  intros Hv. split.
  - intros Hget.
    assert (Hrej : GitRepository.inforefs self env request st
                   = (Ret (HTTPError HTTPMethodNotAllowed), st))
      by (eapply inforefs_rejects; [done | by apply not_in_commands]).
    split; [done|]. intros Hpath. by rewrite call_inforefs, Hrej.
  - intros Hseg.
    assert (Hrej : GitRepository.backend self env request st
                   = (Ret (HTTPError HTTPMethodNotAllowed), st)).
    { apply backend_rejects.
      destruct (Py.in_list (Py.strip_slash (path_info request)) GitRepository.commands)
        eqn:Hin; [|done].
      exfalso. apply Hv. rewrite <- Hseg, (strip_command_trailing _ Hin).
      unfold Py.in_list in Hin. by apply bool_decide_eq_true in Hin. }
    split; [done|]. intros Hpath Hacc. by rewrite call_backend, Hrej.
Qed.

Lemma unknown_command_rejected_witness :
  GitRepository.inforefs Sample.repo Sample.env_no_git
    (Sample.request "/info/refs" {["service" := "git-shell"]} []) Sample.st
  = (Ret (HTTPError HTTPMethodNotAllowed), Sample.st)
  ∧ GitRepository.backend Sample.repo Sample.env_no_git
      (Sample.request "/x/git-shell/" ∅ []) Sample.st
    = (Ret (HTTPError HTTPMethodNotAllowed), Sample.st).
Proof.
  assert (Hv : "git-shell" ∉ GitRepository.commands).
  { intros Hin. apply elem_of_commands in Hin as [?|?]; discriminate. }
  split.
  - apply (proj1 (unknown_command_rejected Sample.repo Sample.env_no_git
                    (Sample.request "/info/refs" {["service" := "git-shell"]} [])
                    Sample.st "git-shell" Hv)). reflexivity.
  - apply (proj2 (unknown_command_rejected Sample.repo Sample.env_no_git
                    (Sample.request "/x/git-shell/" ∅ []) Sample.st "git-shell" Hv)).
    reflexivity.
Defined.


(** C7. When the request passes validation and the command line [cmd] it
    leads to cannot be started, either endpoint answers Expectation Failed
    and nothing has happened in the world. When it can be started the answer
    is a 200 response whose body ends with the output of the process,
    whatever status the process exits with. *)
Theorem launch_failure_expectation_failed self env request st cmd :
  (Py.startswith "/info/refs" (path_info request) = true
   ∧ ∃ v, GET request !! "service" = Some v
          ∧ v ∈ GitRepository.commands
          ∧ cmd = GitRepository.inforefs_command self v)
  ∨ (Py.startswith "/info/refs" (path_info request) = false
     ∧ existsb (accept request) (GitRepository.valid_accepts self) = true
     ∧ Py.strip_slash (path_info request) ∈ GitRepository.commands
     ∧ cmd = GitRepository.backend_command self (Py.strip_slash (path_info request))) →
  (popen env cmd = None →
     GitRepository.call self env request st
     = (Ret (HTTPError HTTPExpectationFailed), st))
  ∧ (∀ p, popen env cmd = Some p →
       ∃ content_type seed st',
         GitRepository.call self env request st
         = (Ret (Streamed content_type (seed ++ p_stdout p)), st')
         ∧ status_code (Streamed content_type (seed ++ p_stdout p)) = 200).
Proof.
  intros [(Hpath & v & Hget & Hv & ->) | (Hpath & Hacc & Hv & ->)].
  - apply elem_of_commands, in_commands in Hv.
    rewrite call_inforefs by done. split.
    + intros Hp. by rewrite (inforefs_launch_failure _ _ _ _ v).
    + intros p Hp. rewrite (inforefs_launched _ _ _ _ v p) by done.
      eexists _, [_], _. split; reflexivity.
  - rewrite call_backend by done. split.
    + intros Hp. apply elem_of_commands, in_commands in Hv.
      by rewrite backend_launch_failure.
    + intros p Hp. apply elem_of_commands in Hv as [Hc|Hc]; rewrite Hc in Hp.
      * rewrite (backend_upload_pack _ _ _ _ p) by done.
        eexists _, [], _. split; reflexivity.
      * rewrite (backend_receive_pack _ _ _ _ p) by done.
        eexists _, [], _. split; reflexivity.
Qed.

Lemma launch_failure_expectation_failed_witness :
  GitRepository.call Sample.repo Sample.env_no_git
    (Sample.request "/info/refs" {["service" := "git-upload-pack"]} []) Sample.st
  = (Ret (HTTPError HTTPExpectationFailed), Sample.st)
  ∧ GitRepository.call Sample.repo Sample.env_no_git
      (Sample.request "/git-receive-pack" ∅ ["application/x-git-receive-pack-result"])
      Sample.st
    = (Ret (HTTPError HTTPExpectationFailed), Sample.st).
Proof.
  split.
  - eapply (proj1 (launch_failure_expectation_failed Sample.repo Sample.env_no_git
                     (Sample.request "/info/refs" {["service" := "git-upload-pack"]} [])
                     Sample.st
                     (GitRepository.inforefs_command Sample.repo "git-upload-pack")
                     _)).
    reflexivity.
  - eapply (proj1 (launch_failure_expectation_failed Sample.repo Sample.env_no_git
                     (Sample.request "/git-receive-pack" ∅
                        ["application/x-git-receive-pack-result"])
                     Sample.st
                     (GitRepository.backend_command Sample.repo "git-receive-pack")
                     _)).
    reflexivity.
  Unshelve.
  + left. split; [reflexivity|]. exists "git-upload-pack".
    repeat split. apply elem_of_commands. by left.
  + right. repeat split. apply elem_of_commands. by right.
Defined.

(** C8: what the code does. A request for [/info/refs] without a [service]
    parameter makes [request.GET['service']] raise [KeyError], which
    [__call__] turns into Internal Server Error, not Method Not Allowed. *)
Theorem missing_service_internal_error self env request st :
  Py.startswith "/info/refs" (path_info request) = true →
  GET request !! "service" = None →
  GitRepository.inforefs self env request st = (Raise (KeyError "service"), st)
  ∧ GitRepository.call self env request st
    = (Ret (HTTPError HTTPInternalServerError), st).
Proof.
  intros Hpath Hget. split; [by apply inforefs_missing|].
  rewrite call_inforefs by done. by rewrite inforefs_missing.
Qed.

Lemma missing_service_internal_error_witness :
  GitRepository.call Sample.repo (Sample.env 0)
    (Sample.request "/info/refs" ∅ []) Sample.st
  = (Ret (HTTPError 500), Sample.st).
Proof.
  apply (missing_service_internal_error Sample.repo (Sample.env 0)
           (Sample.request "/info/refs" ∅ []) Sample.st); reflexivity.
Defined.

(** ** The metadata refresh after a push *)

(** C9 (as the code has it). For a receive-pack POST whose process was
    started, [backend] runs [git update-server-info] right after the start,
    without looking at how the push ends; its exit status is dropped, so the
    response is the one of the push whatever the secondary command does. *)
Theorem receive_pack_refresh self env request st p :
  Py.strip_slash (path_info request) = "git-receive-pack" →
  popen env (GitRepository.backend_command self "git-receive-pack") = Some p →
  ∃ st',
    GitRepository.backend self env request st
    = (Ret (Streamed "application/x-b'git-receive-pack'-result" (p_stdout p)), st')
    ∧ trace st'
      = trace st
        ++ [Spawned (GitRepository.backend_command self "git-receive-pack")
              (GitRepository.backend_input request);
            ShellCall (GitRepository.update_server_info_command self)]
    ∧ ∀ sh,
        fst (GitRepository.backend self (mkEnv (realpath env) (popen env) sh)
               request st)
        = Ret (Streamed "application/x-b'git-receive-pack'-result" (p_stdout p)).
Proof.
  intros Hc Hp. eexists. split; [by apply backend_receive_pack|].
  split; [reflexivity|].
  intros sh. by rewrite (backend_receive_pack _ _ _ _ p).
Qed.

Lemma receive_pack_refresh_witness :
  ∃ st',
    GitRepository.backend Sample.repo (Sample.env 0)
      (Sample.request "/git-receive-pack" ∅ []) Sample.st
    = (Ret (Streamed "application/x-b'git-receive-pack'-result" ["0000"]), st')
    ∧ trace st'
      = [Spawned (GitRepository.backend_command Sample.repo "git-receive-pack")
           (BoundedInput (FileWrapper.init Sample.body 4));
         ShellCall (GitRepository.update_server_info_command Sample.repo)].
Proof.
  destruct (receive_pack_refresh Sample.repo (Sample.env 0)
              (Sample.request "/git-receive-pack" ∅ []) Sample.st
              (mkProc ["0000"] 0) eq_refl eq_refl) as (st' & Hret & Htrace & _).
  exists st'. split; [exact Hret | exact Htrace].
Defined.

(** C9 as stated fails: the push process below ends with status 1, and the
    refresh command is run all the same. *)
Lemma refresh_runs_after_failed_push :
  let cmd := GitRepository.backend_command Sample.repo "git-receive-pack" in
  let r := GitRepository.backend Sample.repo (Sample.env 1)
             (Sample.request "/git-receive-pack" ∅ []) Sample.st in
  (p_exit <$> popen (Sample.env 1) cmd) = Some 1
  ∧ trace (snd r)
    = [Spawned cmd (BoundedInput (FileWrapper.init Sample.body 4));
       ShellCall (GitRepository.update_server_info_command Sample.repo)].
Proof. split; reflexivity. Qed.

(** ** The request body of a POST *)

(** C6 (as the code has it). With a [CONTENT_LENGTH] [n] that is not
    negative and a body stream that does not fail and holds more than [n]
    bytes, [backend] hands the process a [FileWrapper] bounded by [n]; the
    pump of the bridge, reading blocks of a positive size, forwards the first
    [n] bytes of the body and no more; and from then on every read of a
    positive size is answered with [None] while the wrapper and the stream
    under it stay as they are: the stream is not called. *)
Theorem bounded_reader_forwards_content_length request n block :
  CONTENT_LENGTH request = Some n →
  0 ≤ n →
  FileWrapper.broken (wsgi_input request) = false →
  n < Z.of_nat (length (FileWrapper.pending (wsgi_input request))) →
  0 < block →
  ∃ w,
    GitRepository.backend_input request = BoundedInput w
    ∧ ∃ w',
        FileWrapper.forward block w
        = (take (Z.to_nat n) (FileWrapper.pending (wsgi_input request)), w')
        ∧ Z.of_nat (length (fst (FileWrapper.forward block w))) = n
        ∧ FileWrapper.pending (FileWrapper.fd w')
          = drop (Z.to_nat n) (FileWrapper.pending (wsgi_input request))
        ∧ ∀ size, 0 < size → FileWrapper.read size w' = (Ret None, w').
Proof.
  intros Hcl Hn Hok Hlen Hblock.
  exists (FileWrapper.init (wsgi_input request) n).
  split; [unfold GitRepository.backend_input; by rewrite Hcl|].
  destruct (wsgi_input request) as [pend brk log]. simpl in *. subst brk.
  unfold FileWrapper.forward, FileWrapper.init. cbn [FileWrapper.remain].
  destruct (pump_forwards n block Hblock (S (Z.to_nat n)) n pend log)
    as [log' Hpump]; [lia..|].
  rewrite Hpump. eexists. split; [reflexivity|]. simpl.
  split; [rewrite length_take; lia|]. split; [reflexivity|].
  intros size Hsize. by apply read_exhausted.
Qed.

Lemma bounded_reader_forwards_content_length_witness :
  ∃ w',
    FileWrapper.forward 3 (FileWrapper.init Sample.body 4)
    = ([Byte.x30; Byte.x30; Byte.x30; Byte.x30], w')
    ∧ FileWrapper.pending (FileWrapper.fd w') = [Byte.x50]
    ∧ FileWrapper.read 3 w' = (Ret None, w').
Proof.
  destruct (bounded_reader_forwards_content_length
              (Sample.request "/git-receive-pack" ∅ []) 4 3
              eq_refl ltac:(lia) eq_refl ltac:(simpl; lia) ltac:(lia))
    as (w & Hw & w' & Hfwd & _ & Hpend & Hread).
  injection Hw as <-. exists w'.
  split; [exact Hfwd|]. split; [exact Hpend|]. apply Hread. lia.
Defined.

(** C6 as stated fails for a read of size zero: once the four bytes of the
    content length are consumed, [read(0)] still passes the test
    [size <= self.remain], calls [read(0)] on the stream under the wrapper
    and hands back its empty result instead of [None]. *)
Lemma zero_size_read_reaches_stream :
  let w := snd (FileWrapper.forward 3 (FileWrapper.init Sample.body 4)) in
  FileWrapper.remain w = 0
  ∧ FileWrapper.reads (FileWrapper.fd w) = [3; 1]
  ∧ fst (FileWrapper.read 0 w) = Ret (Some [])
  ∧ FileWrapper.reads (FileWrapper.fd (snd (FileWrapper.read 0 w))) = [3; 1; 0].
Proof. repeat split; reflexivity. Qed.

(** C6 as stated fails in two ways. Once the four bytes of the content
    length are consumed, a read of size zero still reaches the stream under
    the wrapper. And a negative content length, which [backend] takes from
    the request as it is, bounds nothing: [remain] is then not zero, the
    first read of the pump is passed on as [read(-1)], and the wrapper hands
    out the whole body. *)
Lemma content_length_bound_fails :
  let w := snd (FileWrapper.forward 3 (FileWrapper.init Sample.body 4)) in
  let request := mkRequest "/git-receive-pack" ∅
                   (Sample.accepts ["application/x-git-receive-pack-result"])
                   (Some (-1)) Sample.body in
  (FileWrapper.remain w = 0
   ∧ fst (FileWrapper.read 0 w) = Ret (Some [])
   ∧ FileWrapper.reads (FileWrapper.fd (snd (FileWrapper.read 0 w))) = [3; 1; 0])
  ∧ GitRepository.backend_input request
    = BoundedInput (FileWrapper.init Sample.body (-1))
  ∧ FileWrapper.pending Sample.body
    = [Byte.x30; Byte.x30; Byte.x30; Byte.x30; Byte.x50]
  ∧ fst (FileWrapper.forward 3 (FileWrapper.init Sample.body (-1)))
    = [Byte.x30; Byte.x30; Byte.x30; Byte.x30; Byte.x50]
  ∧ FileWrapper.reads
      (FileWrapper.fd (snd (FileWrapper.forward 3 (FileWrapper.init Sample.body (-1)))))
    = [-1].
Proof. repeat split; reflexivity. Qed.

(** ** The router *)

Section Router.

Variables (self : GitDirectory.t) (env : Env) (environ request : Request)
          (st : State) (name : string).
Hypothesis popped : path_info_pop environ = (Some name, request).

Lemma call_not_a_repository_name :
  Py.endswith ".git" name = false →
  GitDirectory.call self env environ st = (Ret (HTTPError HTTPNotFound), st).
Proof. intros Hs. unfold GitDirectory.call. by rewrite popped, Hs. Qed.

Lemma call_outside_root :
  Py.endswith ".git" name = true →
  Py.contains (GitDirectory.content_path self)
    (realpath env (Py.path_join (GitDirectory.content_path self) name)) = false →
  GitDirectory.call self env environ st = (Ret (HTTPError HTTPForbidden), st).
Proof.
  intros Hs Hc. unfold GitDirectory.call. rewrite popped, Hs. simpl.
  by rewrite Hc.
Qed.

(** Past the two guards, on a path that is no directory, the router
    either creates or answers Not Found. *)
Lemma call_missing :
  Py.endswith ".git" name = true →
  ∀ cp, cp = realpath env (Py.path_join (GitDirectory.content_path self) name) →
  Py.contains (GitDirectory.content_path self) cp = true →
  dirs st !! cp = None →
  GitDirectory.call self env environ st
  = if GitDirectory.auto_create self
       && accept request "application/x-git-receive-pack-result"
    then GitDirectory.create self env cp request st
    else (Ret (HTTPError HTTPNotFound), st).
Proof.
  intros Hs cp -> Hc Hd. unfold GitDirectory.call. rewrite popped, Hs. simpl.
  rewrite Hc. simpl.
  unfold GitRepository.init, bind, listdir, isdir. rewrite Hd. simpl.
  rewrite Hd, bool_decide_eq_false_2 by (by intros [? ?]).
  by destruct (_ && _).
Qed.

End Router.

Section Create.

Variables (self : GitDirectory.t) (env : Env) (cp : string) (request : Request).

(** The creation when both hooks come back. *)
Lemma create_completes st st1 st3 :
  GitDirectory.pre_clone_hook self cp request st = (Ret tt, st1) →
  GitDirectory.post_clone_hook self cp request
    (snd (subprocess_call env (GitDirectory.git_init_command cp) st1))
  = (Ret tt, st3) →
  GitDirectory.create self env cp request st
  = GitDirectory.delegate cp env request st3.
Proof.
  intros Hpre Hpost. unfold GitDirectory.create, bind. rewrite Hpre.
  destruct (subprocess_call env _ st1) as [[rc|e] st2] eqn:Hcall.
  - simpl in Hpost. by rewrite Hpost.
  - unfold subprocess_call in Hcall. by destruct (shell env _ _).
Qed.

(** A pre-create hook that raises an HTTP status stops the creation: no
    command is run, the status is the response. *)
Lemma create_vetoed st st1 s :
  GitDirectory.pre_clone_hook self cp request st = (Raise (HTTPException s), st1) →
  GitDirectory.create self env cp request st = (Ret (HTTPError s), st1).
Proof. intros Hpre. unfold GitDirectory.create, bind. by rewrite Hpre. Qed.

(** A post-create hook that raises an HTTP status: the repository has
    been initialised, the status is the response. *)
Lemma create_post_vetoed st st1 st3 s :
  GitDirectory.pre_clone_hook self cp request st = (Ret tt, st1) →
  GitDirectory.post_clone_hook self cp request
    (snd (subprocess_call env (GitDirectory.git_init_command cp) st1))
  = (Raise (HTTPException s), st3) →
  GitDirectory.create self env cp request st = (Ret (HTTPError s), st3).
Proof.
  intros Hpre Hpost. unfold GitDirectory.create, bind. rewrite Hpre.
  destruct (subprocess_call env _ st1) as [[rc|e] st2] eqn:Hcall.
  - simpl in Hpost. by rewrite Hpost.
  - unfold subprocess_call in Hcall. by destruct (shell env _ _).
Qed.

Lemma subprocess_call_state cmd st :
  snd (subprocess_call env cmd st)
  = mkState (snd (shell env cmd (dirs st))) (trace st ++ [ShellCall cmd]).
Proof. unfold subprocess_call. by destruct (shell env cmd (dirs st)). Qed.

End Create.

(** C1 (as the code has it). The router looks at the leading segment of the
    path only. A segment that does not end in [.git] is answered with Not
    Found; one that does, and whose resolved path does not contain the
    content root, is answered with Forbidden. In both cases the world is as
    it was: no directory was made and no process started. *)
Theorem escaping_path_rejected self env environ st name request :
  path_info_pop environ = (Some name, request) →
  let resolved := realpath env (Py.path_join (GitDirectory.content_path self) name) in
  (Py.endswith ".git" name = false →
     GitDirectory.call self env environ st = (Ret (HTTPError HTTPNotFound), st))
  ∧ (Py.endswith ".git" name = true →
     Py.contains (GitDirectory.content_path self) resolved = false →
     descendant (GitDirectory.content_path self) resolved = false
     ∧ GitDirectory.call self env environ st = (Ret (HTTPError HTTPForbidden), st)).
Proof.
  intros Hpop resolved. split.
  - intros Hs. by eapply call_not_a_repository_name.
  - intros Hs Hc. split; [|by eapply call_outside_root].
    destruct (descendant _ resolved) eqn:Hd; [|done].
    apply descendant_contains in Hd. congruence.
Qed.

Lemma escaping_path_rejected_witness :
  GitDirectory.call Sample.router (Sample.env 0)
    (Sample.request "/evil.git/info/refs" {["service" := "git-upload-pack"]} [])
    Sample.st
  = (Ret (HTTPError HTTPForbidden), Sample.st).
Proof.
  apply (escaping_path_rejected Sample.router (Sample.env 0)
           (Sample.request "/evil.git/info/refs" {["service" := "git-upload-pack"]} [])
           Sample.st "evil.git"
           (Sample.request "/info/refs" {["service" := "git-upload-pack"]} [])
           eq_refl); reflexivity.
Defined.

(** C1 as stated fails: for the path [/../../etc] the leading segment [..]
    resolves to the parent of the content root, which is no descendant of
    it, and the answer is Not Found, not Forbidden. *)
Lemma parent_path_not_found :
  let environ := Sample.request "/../../etc" ∅ [] in
  fst (path_info_pop environ) = Some ".."
  ∧ descendant (GitDirectory.content_path Sample.router)
      (realpath (Sample.env 0)
         (Py.path_join (GitDirectory.content_path Sample.router) "..")) = false
  ∧ GitDirectory.call Sample.router (Sample.env 0) environ Sample.st
    = (Ret (HTTPError HTTPNotFound), Sample.st)
  ∧ GitDirectory.call Sample.router (Sample.env 0) environ Sample.st
    ≠ (Ret (HTTPError HTTPForbidden), Sample.st).
Proof. repeat split; try reflexivity. vm_compute. discriminate. Qed.

(** The containment test is [in] on strings, not a prefix test: a resolved
    path that merely mentions the root somewhere passes it, and a push then
    creates a repository outside the root. *)
Example containment_is_substring :
  let environ := Sample.request "/away.git/git-receive-pack" ∅
                   ["application/x-git-receive-pack-result"] in
  let resolved := realpath (Sample.env 0) (Py.path_join "/srv/git" "away.git") in
  resolved = "/tmp/srv/git/away.git"
  ∧ descendant "/srv/git" resolved = false
  ∧ Py.contains "/srv/git" resolved = true
  ∧ head (trace (snd (GitDirectory.call Sample.router (Sample.env 0) environ Sample.st)))
    = Some (ShellCall (GitDirectory.git_init_command "/tmp/srv/git/away.git")).
Proof. repeat split; vm_compute; reflexivity. Qed.

(** C5 (as the code has it). For a request whose leading segment ends in
    [.git] and resolves inside the root to a path that is no directory (and
    so no repository): with auto-create on and an Accept header that takes
    the receive-pack result, the router calls the pre-create hook, runs
    [git init --bare] on the path, calls the post-create hook and hands the
    request to the repository handler, unless a hook raises an HTTP status:
    that status is then the response and the steps after the hook are left
    out. Otherwise the router answers Not Found and the world is as it
    was. *)
Theorem auto_create_on_push self env environ st name request :
  path_info_pop environ = (Some name, request) →
  Py.endswith ".git" name = true →
  let cp := realpath env (Py.path_join (GitDirectory.content_path self) name) in
  Py.contains (GitDirectory.content_path self) cp = true →
  dirs st !! cp = None →
  let init_state st1 :=
    mkState (snd (shell env (GitDirectory.git_init_command cp) (dirs st1)))
      (trace st1 ++ [ShellCall (GitDirectory.git_init_command cp)]) in
  (GitDirectory.auto_create self = true →
   accept request "application/x-git-receive-pack-result" = true →
   (∀ st1 st3,
      GitDirectory.pre_clone_hook self cp request st = (Ret tt, st1) →
      GitDirectory.post_clone_hook self cp request (init_state st1) = (Ret tt, st3) →
      GitDirectory.call self env environ st
      = GitDirectory.delegate cp env request st3)
   ∧ (∀ s st1,
        GitDirectory.pre_clone_hook self cp request st
        = (Raise (HTTPException s), st1) →
        GitDirectory.call self env environ st = (Ret (HTTPError s), st1))
   ∧ (∀ s st1 st3,
        GitDirectory.pre_clone_hook self cp request st = (Ret tt, st1) →
        GitDirectory.post_clone_hook self cp request (init_state st1)
        = (Raise (HTTPException s), st3) →
        GitDirectory.call self env environ st = (Ret (HTTPError s), st3)))
  ∧ (GitDirectory.auto_create self
     && accept request "application/x-git-receive-pack-result" = false →
     GitDirectory.call self env environ st = (Ret (HTTPError HTTPNotFound), st)).
Proof.
  intros Hpop Hs cp Hc Hd init_state.
  rewrite (call_missing self env environ request st name Hpop Hs cp eq_refl Hc Hd).
  split.
  - intros -> ->. simpl. repeat split.
    + intros st1 st3 Hpre Hpost.
      apply (create_completes _ _ _ _ _ st1); [done|].
      by rewrite subprocess_call_state.
    + intros s st1 Hpre. by apply create_vetoed.
    + intros s st1 st3 Hpre Hpost.
      apply (create_post_vetoed _ _ _ _ _ st1); [done|].
      by rewrite subprocess_call_state.
  - by intros ->.
Qed.

Lemma auto_create_on_push_witness :
  (∃ st3,
     GitDirectory.call Sample.router (Sample.env 0)
       (Sample.request "/new.git/git-receive-pack" ∅
          ["application/x-git-receive-pack-result"]) Sample.st
     = GitDirectory.delegate "/srv/git/new.git" (Sample.env 0)
         (Sample.request "/git-receive-pack" ∅
            ["application/x-git-receive-pack-result"]) st3
     ∧ dirs st3 !! "/srv/git/new.git" = Some Sample.bare_entries
     ∧ trace st3 = [ShellCall (GitDirectory.git_init_command "/srv/git/new.git")])
  ∧ GitDirectory.call Sample.router_no_create (Sample.env 0)
      (Sample.request "/new.git/git-receive-pack" ∅
         ["application/x-git-receive-pack-result"]) Sample.st
    = (Ret (HTTPError HTTPNotFound), Sample.st).
Proof.
  split.
  - eexists. split.
    + apply (proj1 (proj1 (auto_create_on_push Sample.router (Sample.env 0)
               (Sample.request "/new.git/git-receive-pack" ∅
                  ["application/x-git-receive-pack-result"])
               Sample.st "new.git"
               (Sample.request "/git-receive-pack" ∅
                  ["application/x-git-receive-pack-result"])
               eq_refl eq_refl eq_refl eq_refl) eq_refl eq_refl) Sample.st);
        reflexivity.
    + split; reflexivity.
  - apply (proj2 (auto_create_on_push Sample.router_no_create (Sample.env 0)
             (Sample.request "/new.git/git-receive-pack" ∅
                ["application/x-git-receive-pack-result"])
             Sample.st "new.git"
             (Sample.request "/git-receive-pack" ∅
                ["application/x-git-receive-pack-result"])
             eq_refl eq_refl eq_refl eq_refl)). reflexivity.
Defined.

(** C5 as stated fails: with auto-create on, a push to a path that does not
    exist and a pre-create hook that raises Forbidden, the router answers
    Forbidden; no repository is initialised and the request is not handed
    on. *)
Lemma vetoing_hook_stops_creation :
  let self := GitDirectory.mk "/srv/git" true
                {["pre_clone_hook" := Sample.vetoing_hook]} in
  let environ := Sample.request "/new.git/git-receive-pack" ∅
                   ["application/x-git-receive-pack-result"] in
  GitDirectory.auto_create self = true
  ∧ accept environ "application/x-git-receive-pack-result" = true
  ∧ dirs Sample.st !! "/srv/git/new.git" = None
  ∧ GitDirectory.call self (Sample.env 0) environ Sample.st
    = (Ret (HTTPError HTTPForbidden), Sample.st)
  ∧ trace (snd (GitDirectory.call self (Sample.env 0) environ Sample.st)) = [].
Proof. repeat split; reflexivity. Qed.

(** ** The hooks of the router *)

Lemma init_attrs os_makedirs path auto (kwargs : gmap string GitDirectory.Hook)
    st g st' :
  GitDirectory.init os_makedirs path auto kwargs st = (Ret g, st') →
  GitDirectory.attrs g
  = match kwargs !! "post_clone_hook" with
    | Some h =>
        <["pre_clone_hook" := h]>
          match kwargs !! "pre_clone_hook" with
          | Some h' => <["pre_clone_hook" := h']> ∅
          | None => ∅
          end
    | None =>
        match kwargs !! "pre_clone_hook" with
        | Some h' => <["pre_clone_hook" := h']> ∅
        | None => ∅
        end
    end.
Proof.
  unfold GitDirectory.init, bind, isdir, makedirs, raise, ret.
  destruct (bool_decide _); simpl.
  - intros [= <- _]. simpl. by destruct (kwargs !! "post_clone_hook").
  - destruct auto; [|discriminate].
    destruct (os_makedirs path (dirs st)) as [[] d]; [|discriminate].
    intros [= <- _]. simpl. by destruct (kwargs !! "post_clone_hook").
Qed.

(** C10. A router built with a [post_clone_hook] option keeps the function
    given as its pre-create hook, and its post-create hook stays the no-op
    of the class. On the auto-create path the function therefore runs first,
    on the world as the request found it; [git init --bare] runs on what the
    function leaves behind; and nothing runs between the initialisation and
    the hand-over to the repository handler. *)
Theorem post_clone_hook_option_becomes_pre_hook os_makedirs path auto kwargs f
    st g st' :
  kwargs !! "post_clone_hook" = Some f →
  GitDirectory.init os_makedirs path auto kwargs st = (Ret g, st') →
  GitDirectory.pre_clone_hook g = f
  ∧ GitDirectory.post_clone_hook g = GitDirectory.default_hook
  ∧ ∀ env cp request s,
      GitDirectory.create g env cp request s
      = match f cp request s with
        | (Ret _, s1) =>
            GitDirectory.delegate cp env request
              (mkState (snd (shell env (GitDirectory.git_init_command cp) (dirs s1)))
                 (trace s1 ++ [ShellCall (GitDirectory.git_init_command cp)]))
        | (Raise (HTTPException c), s1) => (Ret (HTTPError c), s1)
        | (Raise e, s1) => (Raise e, s1)
        end.
Proof.
  intros Hk Hinit. apply init_attrs in Hinit. rewrite Hk in Hinit.
  assert (Hpre : GitDirectory.pre_clone_hook g = f).
  { unfold GitDirectory.pre_clone_hook. by rewrite Hinit, lookup_insert_eq. }
  assert (Hpost : GitDirectory.post_clone_hook g = GitDirectory.default_hook).
  { unfold GitDirectory.post_clone_hook. rewrite Hinit.
    rewrite lookup_insert_ne by done.
    destruct (kwargs !! "pre_clone_hook"); [by rewrite lookup_insert_ne|done]. }
  split; [done|]. split; [done|].
  intros env cp request s. unfold GitDirectory.create, bind.
  rewrite Hpre, Hpost.
  destruct (f cp request s) as [[[]|e] s1]; [|done].
  rewrite <- (subprocess_call_state env).
  destruct (subprocess_call env _ s1) as [[rc|e] s2] eqn:Hcall; [done|].
  unfold subprocess_call in Hcall. by destruct (shell env _ _).
Qed.

Lemma post_clone_hook_option_becomes_pre_hook_witness :
  ∃ g,
    fst (GitDirectory.init Cases.refusing_makedirs "/srv/git" true
           {["post_clone_hook" := Sample.marking_hook]} Sample.st) = Ret g
    ∧ GitDirectory.pre_clone_hook g = Sample.marking_hook
    ∧ GitDirectory.post_clone_hook g = GitDirectory.default_hook
    ∧ trace (snd (GitDirectory.call g (Sample.env 0)
                    (Sample.request "/new.git/git-receive-pack" ∅
                       ["application/x-git-receive-pack-result"]) Sample.st))
      = [ShellCall "hook";
         ShellCall (GitDirectory.git_init_command "/srv/git/new.git");
         Spawned
           (GitRepository.backend_command
              (GitRepository.mk "/srv/git/new.git" []) "git-receive-pack")
           (BoundedInput (FileWrapper.init Sample.body 4));
         ShellCall
           (GitRepository.update_server_info_command
              (GitRepository.mk "/srv/git/new.git" []))].
Proof.
  eexists. split; [reflexivity|].
  assert (Hk : ({["post_clone_hook" := Sample.marking_hook]}
                  : gmap string GitDirectory.Hook) !! "post_clone_hook"
               = Some Sample.marking_hook) by reflexivity.
  destruct (post_clone_hook_option_becomes_pre_hook Cases.refusing_makedirs
              "/srv/git" true
              {["post_clone_hook" := Sample.marking_hook]} Sample.marking_hook
              Sample.st _ Sample.st Hk eq_refl) as (Hpre & Hpost & _).
  split; [exact Hpre|]. split; [exact Hpost|]. reflexivity.
Defined.

(** ** The scenarios of the specification, run *)

(** Advertisement of an existing repository. *)
Example scenario_advertise :
  GitDirectory.call Sample.router (Sample.env 0)
    (Sample.request "/a.git/info/refs" {["service" := "git-upload-pack"]} [])
    Sample.st
  = (Ret (Streamed "application/x-git-upload-pack-advertisement"
            ["001d# service=git-upload-pack0000"; "0000"]),
     mkState (dirs Sample.st)
       [Spawned
          (GitRepository.inforefs_command (GitRepository.mk "/srv/git/a.git" [])
             "git-upload-pack")
          NoInput]).
Proof. reflexivity. Qed.

(** A push to a repository that does not exist, auto-create on. *)
Example scenario_push_creates :
  let r := GitDirectory.call Sample.router (Sample.env 0)
             (Sample.request "/new.git/git-receive-pack" ∅
                ["application/x-git-receive-pack-result"]) Sample.st in
  status_code <$> (match fst r with Ret resp => Some resp | Raise _ => None end)
  = Some 200
  ∧ dirs (snd r) !! "/srv/git/new.git" = Some Sample.bare_entries.
Proof. split; reflexivity. Qed.

(** * Further properties of the code *)

(** ** [FileWrapper.read] under any caller *)

Section ReaderInvariant.

Import FileWrapper.

(** One read of a non-negative size hands out at most what remained, and
    what remains afterwards is still not negative and has dropped by at
    least the bytes handed out. *)
Lemma read_budget size (w : t) :
  0 ≤ size → 0 ≤ remain w →
  let '(r, w') := read size w in
  0 ≤ remain w'
  ∧ match r with
    | Ret (Some data) => Z.of_nat (length data) ≤ remain w - remain w'
    | Ret None => w' = w
    | Raise _ => remain w' = remain w
    end.
Proof.
  intros Hsize Hrem. destruct w as [[pend brk log] c r]. simpl in *.
  unfold read, fd_read. simpl.
  destruct (Z.leb_spec size r).
  - destruct brk; simpl; [lia|].
    destruct (Z.ltb_spec size 0); [lia|]. simpl.
    rewrite length_take. lia.
  - destruct (Z.eqb_spec r 0); simpl; [done|].
    destruct brk; simpl; [lia|].
    destruct (Z.ltb_spec r 0); [lia|]. simpl.
    rewrite length_take. lia.
Qed.

Lemma read_many_budget sizes : ∀ w : t,
  Forall (λ size, 0 ≤ size) sizes → 0 ≤ remain w →
  Z.of_nat (length (concat (fst (read_many sizes w)))) ≤ remain w
  ∧ 0 ≤ remain (snd (read_many sizes w)).
Proof.
  induction sizes as [|size sizes IH]; intros w Hsizes Hrem; simpl; [lia|].
  apply Forall_cons in Hsizes as [Hsize Hsizes].
  pose proof (read_budget size w Hsize Hrem) as Hone.
  destruct (read size w) as [[[data|]|e] w1]; simpl in *.
  - destruct Hone as [Hrem1 Hlen].
    specialize (IH w1 Hsizes Hrem1).
    destruct (read_many sizes w1) as [ds w2]. simpl in *.
    rewrite length_app. lia.
  - destruct Hone as [Hrem1 ->]. by apply IH.
  - lia.
Qed.

End ReaderInvariant.

(** X1. Whatever non-negative sizes a caller asks for, in whatever order, and
    whatever the stream under the wrapper holds or does, the reads of a
    [FileWrapper] built with content length [n] hand out at most [n] bytes
    altogether, and [remain] never becomes negative. *)
Theorem reads_never_exceed_content_length fd n sizes :
  0 ≤ n →
  Forall (λ size, 0 ≤ size) sizes →
  let '(chunks, w) := read_many sizes (FileWrapper.init fd n) in
  Z.of_nat (length (concat chunks)) ≤ n ∧ 0 ≤ FileWrapper.remain w.
Proof.
  intros Hn Hsizes.
  pose proof (read_many_budget sizes (FileWrapper.init fd n) Hsizes Hn) as H.
  by destruct (read_many sizes (FileWrapper.init fd n)).
Qed.

Lemma reads_never_exceed_content_length_witness :
  fst (read_many [3; 0; 5; 2] (FileWrapper.init Sample.body 4))
  = [[Byte.x30; Byte.x30; Byte.x30]; []; [Byte.x30]]
  ∧ Z.of_nat (length (concat (fst (read_many [3; 0; 5; 2]
                                     (FileWrapper.init Sample.body 4))))) ≤ 4.
Proof.
  split; [reflexivity|].
  pose proof (reads_never_exceed_content_length Sample.body 4 [3; 0; 5; 2]
                ltac:(lia) ltac:(repeat constructor; lia)) as H.
  destruct (read_many [3; 0; 5; 2] (FileWrapper.init Sample.body 4)).
  exact (proj1 H).
Defined.

Section Pump.

Import FileWrapper.

Variables (cl : Z) (block : Z).
Hypothesis block_pos : 0 < block.


End Pump.



(** X3. On a transport that fails, a read that reaches the stream raises and
    leaves [remain] as it was, so a failed read is not counted; once nothing
    remains, a read of positive size does not reach the stream and is
    answered with [None] all the same. *)
Theorem failed_read_is_not_counted size (w : FileWrapper.t) :
  FileWrapper.broken (FileWrapper.fd w) = true →
  (size ≤ FileWrapper.remain w ∨ FileWrapper.remain w ≠ 0 →
     ∃ e, fst (FileWrapper.read size w) = Raise e
          ∧ FileWrapper.remain (snd (FileWrapper.read size w)) = FileWrapper.remain w)
  ∧ (FileWrapper.remain w = 0 → 0 < size →
     FileWrapper.read size w = (Ret None, w)).
Proof.
  intros Hbrk. split.
  - intros Hreach. destruct w as [[pend brk log] c r]. simpl in *. subst brk.
    unfold FileWrapper.read, FileWrapper.fd_read. simpl.
    destruct (Z.leb_spec size r); [simpl; eauto|].
    destruct (Z.eqb_spec r 0); [lia|]. simpl. eauto.
  - intros Hr Hsize. unfold FileWrapper.read. rewrite Hr.
    by destruct (Z.leb_spec size 0); [lia|].
Qed.

Lemma failed_read_is_not_counted_witness :
  ∃ e, fst (FileWrapper.read 1 (FileWrapper.init Cases.broken_body 2)) = Raise e
       ∧ FileWrapper.remain
           (snd (FileWrapper.read 1 (FileWrapper.init Cases.broken_body 2))) = 2.
Proof.
  apply (proj1 (failed_read_is_not_counted 1
                  (FileWrapper.init Cases.broken_body 2) eq_refl)).
  left. simpl. lia.
Defined.

(** X4. The bound does not hold against a negative size: such a read passes
    the test [size <= self.remain], makes the stream read to its end, hands
    out everything the stream held and raises [remain] by the size's
    magnitude. *)
Theorem negative_read_escapes_bound size (w : FileWrapper.t) :
  size < 0 → 0 ≤ FileWrapper.remain w →
  FileWrapper.broken (FileWrapper.fd w) = false →
  fst (FileWrapper.read size w) = Ret (Some (FileWrapper.pending (FileWrapper.fd w)))
  ∧ FileWrapper.pending (FileWrapper.fd (snd (FileWrapper.read size w))) = []
  ∧ FileWrapper.remain (snd (FileWrapper.read size w)) = FileWrapper.remain w - size.
Proof.
  intros Hsize Hrem Hok. destruct w as [[pend brk log] c r]. simpl in *. subst brk.
  unfold FileWrapper.read, FileWrapper.fd_read. simpl.
  destruct (Z.leb_spec size r); [|lia].
  by destruct (Z.ltb_spec size 0); [|lia].
Qed.

Lemma negative_read_escapes_bound_witness :
  fst (FileWrapper.read (-1) (FileWrapper.init Sample.body 0))
  = Ret (Some [Byte.x30; Byte.x30; Byte.x30; Byte.x30; Byte.x50])
  ∧ FileWrapper.remain (snd (FileWrapper.read (-1) (FileWrapper.init Sample.body 0))) = 1.
Proof.
  destruct (negative_read_escapes_bound (-1) (FileWrapper.init Sample.body 0)
              ltac:(lia) ltac:(simpl; lia) eq_refl) as (Hdata & _ & Hrem).
  split; [exact Hdata | exact Hrem].
Defined.

(** ** Everything [GitRepository.__call__] can do *)

Section Outcomes.

Variables (self : GitRepository.t) (env : Env) (request : Request) (st : State).

(** The outcomes of a call, one by one: an error status with the world
    untouched, an advertisement, a fetch or a push. *)
Lemma call_cases :
  (∃ s, s ∈ [HTTPMethodNotAllowed; HTTPExpectationFailed; HTTPInternalServerError]
        ∧ GitRepository.call self env request st = (Ret (HTTPError s), st))
  ∨ (∃ v p,
       Py.startswith "/info/refs" (path_info request) = true
       ∧ GET request !! "service" = Some v
       ∧ v ∈ GitRepository.commands
       ∧ popen env (GitRepository.inforefs_command self v) = Some p
       ∧ GitRepository.call self env request st
         = (Ret (Streamed
                   (String.append "application/x-" (String.append v "-advertisement"))
                   (PktLine.frame (PktLine.smart_server_advert v) :: p_stdout p)),
            mkState (dirs st)
              (trace st ++ [Spawned (GitRepository.inforefs_command self v) NoInput])))
  ∨ (∃ p,
       Py.startswith "/info/refs" (path_info request) = false
       ∧ Py.strip_slash (path_info request) = "git-upload-pack"
       ∧ popen env (GitRepository.backend_command self "git-upload-pack") = Some p
       ∧ GitRepository.call self env request st
         = (Ret (Streamed "application/x-b'git-upload-pack'-result" (p_stdout p)),
            mkState (dirs st)
              (trace st
               ++ [Spawned (GitRepository.backend_command self "git-upload-pack")
                     (GitRepository.backend_input request)])))
  ∨ (∃ p,
       Py.startswith "/info/refs" (path_info request) = false
       ∧ Py.strip_slash (path_info request) = "git-receive-pack"
       ∧ popen env (GitRepository.backend_command self "git-receive-pack") = Some p
       ∧ GitRepository.call self env request st
         = (Ret (Streamed "application/x-b'git-receive-pack'-result" (p_stdout p)),
            mkState
              (snd (shell env (GitRepository.update_server_info_command self) (dirs st)))
              (trace st
               ++ [Spawned (GitRepository.backend_command self "git-receive-pack")
                     (GitRepository.backend_input request);
                   ShellCall (GitRepository.update_server_info_command self)]))).
Proof.
  destruct (Py.startswith "/info/refs" (path_info request)) eqn:Hpath.
  - rewrite call_inforefs by done.
    destruct (GET request !! "service") as [v|] eqn:Hget.
    + destruct (Py.in_list v GitRepository.commands) eqn:Hv.
      * destruct (popen env (GitRepository.inforefs_command self v)) as [p|] eqn:Hp.
        -- right; left. exists v, p. rewrite (inforefs_launched _ _ _ _ v p) by done.
           repeat split; try done. by apply elem_of_commands, in_commands.
        -- left. exists HTTPExpectationFailed.
           rewrite (inforefs_launch_failure _ _ _ _ v) by done.
           split; [|done]. apply list_elem_of_In. simpl. tauto.
      * left. exists HTTPMethodNotAllowed.
        rewrite (inforefs_rejects _ _ _ _ v) by done.
        split; [|done]. apply list_elem_of_In. simpl. tauto.
    + left. exists HTTPInternalServerError. rewrite inforefs_missing by done.
      split; [|done]. apply list_elem_of_In. simpl. tauto.
  - destruct (existsb (accept request) (GitRepository.valid_accepts self)) eqn:Hacc.
    + rewrite call_backend by done.
      destruct (Py.in_list (Py.strip_slash (path_info request)) GitRepository.commands)
        eqn:Hv.
      * destruct (popen env (GitRepository.backend_command self
                               (Py.strip_slash (path_info request)))) as [p|] eqn:Hp.
        -- apply in_commands in Hv as [Hc|Hc]; rewrite Hc in Hp.
           ++ right; right; left. exists p.
              by rewrite (backend_upload_pack _ _ _ _ p).
           ++ right; right; right. exists p.
              by rewrite (backend_receive_pack _ _ _ _ p).
        -- left. exists HTTPExpectationFailed. rewrite backend_launch_failure by done.
           split; [|done]. apply list_elem_of_In. simpl. tauto.
      * left. exists HTTPMethodNotAllowed. rewrite backend_rejects by done.
        split; [|done]. apply list_elem_of_In. simpl. tauto.
    + left. exists HTTPInternalServerError.
      unfold GitRepository.call, GitRepository.dispatch. rewrite Hpath, Hacc.
      split; [|done]. apply list_elem_of_In. simpl. tauto.
Qed.

End Outcomes.

(** X5. Once [GitRepository.__call__] has read the path and the Accept
    header of the request, which it does before its [try] and which is where
    a request as modelled here starts, nothing the chosen endpoint raises
    gets out: for every such request and every world the call answers, and
    with one of the statuses 200, 405, 417 and 500. *)
Theorem handler_always_answers self env request st :
  ∃ resp st',
    GitRepository.call self env request st = (Ret resp, st')
    ∧ status_code resp ∈ handler_statuses.
Proof.
  unfold handler_statuses.
  destruct (call_cases self env request st)
    as [(s & Hs & ->) | [(v & p & _ & _ & _ & _ & ->)
       | [(p & _ & _ & _ & ->) | (p & _ & _ & _ & ->)]]];
    eexists _, _; (split; [reflexivity|]); simpl.
  - apply list_elem_of_In in Hs. apply list_elem_of_In. simpl in *. tauto.
  - apply list_elem_of_In. simpl. tauto.
  - apply list_elem_of_In. simpl. tauto.
  - apply list_elem_of_In. simpl. tauto.
Qed.

(** X6. A request that is neither for a path starting with [/info/refs] nor
    accepts one of the two result types leaves [app] unbound: the answer is
    Internal Server Error, and nothing is started. *)
Theorem undispatched_request_internal_error self env request st :
  Py.startswith "/info/refs" (path_info request) = false →
  existsb (accept request) (GitRepository.valid_accepts self) = false →
  GitRepository.call self env request st
  = (Ret (HTTPError HTTPInternalServerError), st).
Proof.
  intros Hpath Hacc. unfold GitRepository.call, GitRepository.dispatch.
  by rewrite Hpath, Hacc.
Qed.

Lemma undispatched_request_internal_error_witness :
  GitRepository.call Sample.repo (Sample.env 0)
    (Sample.request "/HEAD" ∅ ["text/plain"]) Sample.st
  = (Ret (HTTPError HTTPInternalServerError), Sample.st).
Proof.
  apply (undispatched_request_internal_error Sample.repo (Sample.env 0)
           (Sample.request "/HEAD" ∅ ["text/plain"]) Sample.st); reflexivity.
Defined.

(** X7. Whatever the request, every process the handler starts runs one of
    four command lines made of a whitelisted command and the repository
    path, and the only shell command it runs is the metadata refresh of that
    repository; earlier events stay in the trace. *)
Theorem handler_runs_whitelisted_commands self env request st ev :
  ev ∈ trace (snd (GitRepository.call self env request st)) →
  ev ∈ trace st
  ∨ (∃ cmd input, ev = Spawned cmd input ∧ cmd ∈ handler_commands self)
  ∨ ev = ShellCall (GitRepository.update_server_info_command self).
Proof.
  unfold handler_commands.
  destruct (call_cases self env request st)
    as [(s & _ & ->) | [(v & p & _ & _ & Hv & _ & ->)
       | [(p & _ & _ & _ & ->) | (p & _ & _ & _ & ->)]]]; simpl.
  - tauto.
  - rewrite elem_of_app, list_elem_of_singleton. intros [?| ->]; [tauto|].
    right; left. eexists _, _. split; [done|].
    apply elem_of_commands in Hv as [-> | ->]; apply list_elem_of_In; simpl; tauto.
  - rewrite elem_of_app, list_elem_of_singleton. intros [?| ->]; [tauto|].
    right; left. eexists _, _. split; [done|]. apply list_elem_of_In; simpl; tauto.
  - rewrite elem_of_app, !elem_of_cons, elem_of_nil.
    intros [?|[->|[->|[]]]]; [tauto| |tauto].
    right; left. eexists _, _. split; [done|]. apply list_elem_of_In; simpl; tauto.
Qed.

Lemma handler_runs_whitelisted_commands_witness :
  Spawned (GitRepository.backend_command Sample.repo "git-upload-pack")
    (BoundedInput (FileWrapper.init Sample.body 4))
  ∈ trace Sample.st
  ∨ (∃ cmd input,
       Spawned (GitRepository.backend_command Sample.repo "git-upload-pack")
         (BoundedInput (FileWrapper.init Sample.body 4)) = Spawned cmd input
       ∧ cmd ∈ handler_commands Sample.repo)
  ∨ Spawned (GitRepository.backend_command Sample.repo "git-upload-pack")
      (BoundedInput (FileWrapper.init Sample.body 4))
    = ShellCall (GitRepository.update_server_info_command Sample.repo).
Proof.
  apply (handler_runs_whitelisted_commands Sample.repo (Sample.env 0)
           (Sample.request "//git-upload-pack/" ∅
              ["application/x-git-upload-pack-result"]) Sample.st).
  apply list_elem_of_In. simpl. tauto.
Defined.

(** X8. The handler changes the directories only through the metadata
    refresh of a push that was started: for every other request, rejected,
    failed, advertisement or fetch, the directories are as before and no
    shell command is run. *)
Theorem only_started_push_touches_directories self env request st :
  Py.startswith "/info/refs" (path_info request) = true
  ∨ Py.strip_slash (path_info request) ≠ "git-receive-pack"
  ∨ popen env (GitRepository.backend_command self "git-receive-pack") = None →
  dirs (snd (GitRepository.call self env request st)) = dirs st
  ∧ ∀ cmd, ShellCall cmd ∈ trace (snd (GitRepository.call self env request st)) →
           ShellCall cmd ∈ trace st.
Proof.
  intros Hnot.
  destruct (call_cases self env request st)
    as [(s & _ & ->) | [(v & p & _ & _ & Hv & _ & ->)
       | [(p & _ & _ & _ & ->) | (p & Hpath & Hc & Hp & _)]]]; simpl.
  - done.
  - split; [done|]. intros cmd. rewrite elem_of_app, list_elem_of_singleton.
    by intros [?|?].
  - split; [done|]. intros cmd. rewrite elem_of_app, list_elem_of_singleton.
    by intros [?|?].
  - destruct Hnot as [?|[?|?]]; congruence.
Qed.

Lemma only_started_push_touches_directories_witness :
  dirs (snd (GitRepository.call Sample.repo (Sample.env 0)
               (Sample.request "/git-upload-pack" ∅
                  ["application/x-git-upload-pack-result"]) Sample.st))
  = dirs Sample.st.
Proof.
  apply (only_started_push_touches_directories Sample.repo (Sample.env 0)
           (Sample.request "/git-upload-pack" ∅
              ["application/x-git-upload-pack-result"]) Sample.st).
  right; left. discriminate.
Defined.

(** ** Reading the advertisement back *)

Section Substrings.

Local Open Scope nat_scope.

Lemma substring_append_l a b : String.substring 0 (String.length a) (String.append a b) = a.
Proof.
  induction a as [|c a IH]; simpl; [rewrite append_empty; by destruct b|].
  by rewrite IH.
Qed.

Lemma substring_append_r a b m :
  String.substring (String.length a) m (String.append a b) = String.substring 0 m b.
Proof. induction a as [|c a IH]; simpl; [by rewrite append_empty|done]. Qed.

Lemma slice_from_append a b : Py.slice_from (String.length a) (String.append a b) = b.
Proof.
  induction a as [|c a IH]; simpl; [by rewrite append_empty|done].
Qed.

Lemma substring_all s : String.substring 0 (String.length s) s = s.
Proof. induction s as [|c s IH]; simpl; [done|]. by rewrite IH. Qed.

Lemma append_assoc a b c :
  String.append (String.append a b) c = String.append a (String.append b c).
Proof. induction a as [|x a IH]; [done|]. by rewrite !append_cons, IH. Qed.

End Substrings.

(** Reading a frame gives the payload and leaves the flush marker. *)
Lemma pkt_read_frame payload :
  Py.len payload + 4 < 65536 →
  pkt_read (PktLine.frame payload) = Some (Data payload, "0000").
Proof.
  intros Hlen.
  destruct (rjust_hex (Py.len payload + 4)) as (Hpre & _ & Hval);
    [unfold Py.len in *; lia|].
  fold (PktLine.length_prefix payload) in Hpre, Hval.
  unfold pkt_read, PktLine.frame.
  set (pre := PktLine.length_prefix payload) in *.
  assert (Hsub : String.substring 0 4 (String.append pre (String.append payload "0000"))
                 = pre) by (rewrite <- Hpre at 1; apply substring_append_l).
  rewrite Hsub, Hval. unfold Py.len.
  rewrite !append_length, Hpre. simpl String.length.
  replace (Z.to_nat (Z.of_nat (String.length payload) + 4))
    with (4 + String.length payload)%nat by lia.
  destruct (Nat.ltb_spec (4 + (String.length payload + 4)) 4); [lia|].
  destruct (Nat.eqb_spec (4 + String.length payload) 0); [lia|].
  destruct (Nat.ltb_spec (4 + String.length payload) 4); [lia|].
  destruct (Nat.ltb_spec (4 + (String.length payload + 4))
              (4 + String.length payload)); [lia|].
  simpl orb. cbv iota.
  replace (4 + String.length payload - 4)%nat with (String.length payload) by lia.
  f_equal. f_equal.
  - f_equal. rewrite <- Hpre at 1. rewrite substring_append_r.
    apply substring_append_l.
  - rewrite <- append_assoc.
    replace (4 + String.length payload)%nat
      with (String.length (String.append pre payload))
      by (rewrite append_length; lia).
    apply slice_from_append.
Qed.

(** X9. Framing and reading are inverse: for every payload whose length
    prefix fits four digits, a pkt-line reader gets the payload back from
    the frame [inforefs] builds, unchanged and whole, and finds the flush
    packet right after it. *)
Theorem frame_reads_back payload :
  Py.len payload + 4 < 65536 →
  pkt_read (PktLine.frame payload) = Some (Data payload, "0000")
  ∧ pkt_read "0000" = Some (Flush, EmptyString).
Proof. intros Hlen. split; [by apply pkt_read_frame | reflexivity]. Qed.

Lemma frame_reads_back_witness :
  pkt_read (PktLine.frame (PktLine.smart_server_advert "git-receive-pack"))
  = Some (Data "# service=git-receive-pack", "0000").
Proof.
  apply (frame_reads_back (PktLine.smart_server_advert "git-receive-pack")).
  reflexivity.
Defined.

(** X10. An advertisement that was started: whatever the Accept header and
    the body of the request, the response has the content type
    [application/x-<service>-advertisement], its first chunk reads back as
    the pkt-line [# service=<service>] followed by a flush packet, the
    output of the process follows, the process got no input, and the
    directories are untouched. *)
Theorem advertisement_response self env request st v p :
  Py.startswith "/info/refs" (path_info request) = true →
  GET request !! "service" = Some v →
  v ∈ GitRepository.commands →
  popen env (GitRepository.inforefs_command self v) = Some p →
  ∃ first st',
    GitRepository.call self env request st
    = (Ret (Streamed
              (String.append "application/x-" (String.append v "-advertisement"))
              (first :: p_stdout p)), st')
    ∧ pkt_read first = Some (Data (String.append "# service=" v), "0000")
    ∧ trace st' = trace st ++ [Spawned (GitRepository.inforefs_command self v) NoInput]
    ∧ dirs st' = dirs st.
Proof.
  intros Hpath Hget Hv Hp.
  rewrite call_inforefs by done.
  rewrite (inforefs_launched _ _ _ _ v p) by (done || by apply in_commands, elem_of_commands).
  eexists _, _. split; [reflexivity|]. split; [|done].
  apply pkt_read_frame.
  apply elem_of_commands in Hv as [-> | ->]; reflexivity.
Qed.

Lemma advertisement_response_witness :
  ∃ first st',
    GitRepository.call Sample.repo (Sample.env 0)
      (Sample.request "/info/refs" {["service" := "git-upload-pack"]}
         ["application/x-git-receive-pack-result"]) Sample.st
    = (Ret (Streamed "application/x-git-upload-pack-advertisement" [first; "0000"]), st')
    ∧ pkt_read first = Some (Data "# service=git-upload-pack", "0000").
Proof.
  assert (Hget : GET (Sample.request "/info/refs" {["service" := "git-upload-pack"]}
                        ["application/x-git-receive-pack-result"]) !! "service"
                 = Some "git-upload-pack") by reflexivity.
  assert (Hv : "git-upload-pack" ∈ GitRepository.commands)
    by (apply elem_of_commands; by left).
  destruct (advertisement_response Sample.repo (Sample.env 0)
              (Sample.request "/info/refs" {["service" := "git-upload-pack"]}
                 ["application/x-git-receive-pack-result"]) Sample.st
              "git-upload-pack" (mkProc ["0000"] 0) eq_refl Hget Hv eq_refl)
    as (first & st' & Hcall & Hread & _).
  exists first, st'. split; [exact Hcall | exact Hread].
Defined.

(** X11. The content type of a POST result is the literal text produced by
    formatting the encoded command: [application/x-b'<command>'-result]. It
    is never one of the two result types the handler itself looks for in the
    Accept header. *)
Theorem post_result_content_type self env request st content_type body st' :
  Py.startswith "/info/refs" (path_info request) = false →
  GitRepository.call self env request st = (Ret (Streamed content_type body), st') →
  content_type
  = String.append "application/x-b'"
      (String.append (Py.strip_slash (path_info request)) "'-result")
  ∧ content_type ∉ ["application/x-git-upload-pack-result";
                     "application/x-git-receive-pack-result"].
Proof.
  intros Hpath Hcall.
  destruct (call_cases self env request st)
    as [(s & _ & Hc) | [(v & p & Hp & _) | [(p & _ & Hs & _ & Hc) | (p & _ & Hs & _ & Hc)]]];
    rewrite Hc in Hcall || congruence.
  - discriminate.
  - injection Hcall as <- _ _. rewrite Hs. split; [reflexivity|].
    rewrite !elem_of_cons, elem_of_nil. intros [?|[?|[]]]; discriminate.
  - injection Hcall as <- _ _. rewrite Hs. split; [reflexivity|].
    rewrite !elem_of_cons, elem_of_nil. intros [?|[?|[]]]; discriminate.
Qed.

Lemma post_result_content_type_witness :
  "application/x-b'git-upload-pack'-result"
  ∉ ["application/x-git-upload-pack-result"; "application/x-git-receive-pack-result"].
Proof.
  apply (post_result_content_type Sample.repo (Sample.env 0)
           (Sample.request "/git-upload-pack" ∅
              ["application/x-git-upload-pack-result"]) Sample.st
           "application/x-b'git-upload-pack'-result" ["0000"]
           (mkState (dirs Sample.st)
              [Spawned (GitRepository.backend_command Sample.repo "git-upload-pack")
                 (BoundedInput (FileWrapper.init Sample.body 4))])
           eq_refl eq_refl).
Defined.

(** ** The POST paths [backend] takes *)

Lemma rstrip_slashes_only k : Py.rstrip_slash (Py.replicate_char k Py.slash) = EmptyString.
Proof. induction k as [|k IH]; [done|]. simpl. by rewrite IH. Qed.

Lemma rstrip_append_slashes s k :
  Py.rstrip_slash (String.append s (Py.replicate_char k Py.slash)) = Py.rstrip_slash s.
Proof.
  induction s as [|c s IH].
  - rewrite append_empty. apply rstrip_slashes_only.
  - rewrite append_cons. cbn [Py.rstrip_slash]. by rewrite IH.
Qed.

Lemma rstrip_append_kept a b :
  Py.rstrip_slash b ≠ EmptyString →
  Py.rstrip_slash (String.append a b) = String.append a (Py.rstrip_slash b).
Proof.
  intros Hb. induction a as [|c a IH]; [by rewrite !append_empty|].
  rewrite !append_cons. cbn [Py.rstrip_slash]. rewrite IH.
  destruct (String.append a (Py.rstrip_slash b)) eqn:Hab.
  - destruct a; [by rewrite append_empty in Hab|by rewrite append_cons in Hab].
  - by rewrite andb_false_r.
Qed.

Lemma lstrip_append_slashes k s :
  Py.lstrip_slash (String.append (Py.replicate_char k Py.slash) s) = Py.lstrip_slash s.
Proof.
  induction k as [|k IH]; [by rewrite append_empty|].
  cbn [Py.replicate_char]. rewrite append_cons. cbn [Py.lstrip_slash].
  by rewrite Ascii.eqb_refl.
Qed.

Lemma rstrip_slashes s :
  ∃ k, s = String.append (Py.rstrip_slash s) (Py.replicate_char k Py.slash).
Proof.
  induction s as [|c s [k IH]]; [by exists 0%nat|].
  cbn [Py.rstrip_slash].
  destruct (Ascii.eqb_spec c Py.slash) as [->|Hne]; simpl andb.
  - destruct (String.eqb_spec (Py.rstrip_slash s) EmptyString) as [He|He].
    + exists (S k). rewrite He in IH. rewrite append_empty in *.
      cbn [Py.replicate_char]. by rewrite <- IH.
    + exists k. rewrite append_cons. by rewrite <- IH.
  - exists k. rewrite append_cons. by rewrite <- IH.
Qed.

(** The paths that strip to a command are the commands with slashes, and
    nothing else, around them. *)
Lemma strip_command_shape path :
  Py.strip_slash path ∈ GitRepository.commands
  ↔ ∃ j k c,
      c ∈ GitRepository.commands
      ∧ path = String.append (Py.replicate_char j Py.slash)
                 (String.append c (Py.replicate_char k Py.slash)).
Proof.
  split.
  - intros Hin. unfold Py.strip_slash in *.
    destruct (rstrip_slashes path) as [k Hk].
    destruct (lstrip_slashes (Py.rstrip_slash path)) as [j Hj].
    exists j, k, (Py.lstrip_slash (Py.rstrip_slash path)). split; [done|].
    rewrite <- append_assoc, <- Hj. exact Hk.
  - intros (j & k & c & Hc & ->). unfold Py.strip_slash.
    rewrite <- append_assoc, rstrip_append_slashes.
    assert (Hr : Py.rstrip_slash c = c ∧ Py.lstrip_slash c = c ∧ c ≠ EmptyString)
      by (apply elem_of_commands in Hc as [-> | ->]; by repeat split).
    destruct Hr as (Hr & Hl & Hne).
    rewrite rstrip_append_kept by (by rewrite Hr).
    by rewrite Hr, lstrip_append_slashes, Hl.
Qed.

(** X12. [backend] answers Method Not Allowed exactly for the paths that are
    not a whitelisted command with nothing but slashes before and after it:
    a path with a further segment, such as [/x/git-upload-pack], is turned
    away, a path such as [//git-upload-pack/] is taken. *)
Theorem backend_rejects_exactly_other_paths self env request st :
  GitRepository.backend self env request st
  = (Ret (HTTPError HTTPMethodNotAllowed), st)
  ↔ ¬ ∃ j k c,
        c ∈ GitRepository.commands
        ∧ path_info request
          = String.append (Py.replicate_char j Py.slash)
              (String.append c (Py.replicate_char k Py.slash)).
Proof.
  rewrite <- strip_command_shape. split.
  - intros Hrej Hin.
    assert (Hb : Py.in_list (Py.strip_slash (path_info request)) GitRepository.commands
                 = true) by (by apply bool_decide_eq_true).
    destruct (popen env (GitRepository.backend_command self
                           (Py.strip_slash (path_info request)))) as [p|] eqn:Hp.
    + apply elem_of_commands in Hin as [Hc|Hc]; rewrite Hc in Hp.
      * by rewrite (backend_upload_pack _ _ _ _ p) in Hrej.
      * by rewrite (backend_receive_pack _ _ _ _ p) in Hrej.
    + by rewrite backend_launch_failure in Hrej.
  - intros Hnot. by apply backend_rejects, not_in_commands.
Qed.

(** ** More on the validity check *)

Lemma init_outcome path names st :
  dirs st !! path = Some names →
  is_Ret (fst (GitRepository.init path st)) = true
  ↔ ∀ m, m ∈ ["config"; "head"; "info"; "objects"; "refs"] → m ∈ Py.lower <$> names.
Proof.
  intros Hdir. unfold GitRepository.init, bind, listdir. rewrite Hdir.
  assert (Hiff : GitRepository.git_folder_signature
                   ∩ list_to_set (Py.lower <$> names)
                 = GitRepository.git_folder_signature
                 ↔ ∀ m, m ∈ ["config"; "head"; "info"; "objects"; "refs"]
                        → m ∈ Py.lower <$> names).
  { rewrite signature_covered.
    split; intros H m Hm; specialize (H m Hm);
      by apply (elem_of_list_to_set (C := gset string)). }
  case_decide as Hd; simpl; split; try done; tauto.
Qed.

(** X13. The validity check looks at the lowercased names only, and only
    for the presence of the markers: if every lowercased name of one listing
    occurs among those of another, and the first is accepted, so is the
    second. Further entries, another order, repeated names and another
    capitalisation never turn a repository into a directory that is
    rejected. *)
Theorem validity_survives_more_entries path names st path' names' st' :
  dirs st !! path = Some names →
  dirs st' !! path' = Some names' →
  (∀ m, m ∈ Py.lower <$> names → m ∈ Py.lower <$> names') →
  is_Ret (fst (GitRepository.init path st)) = true →
  is_Ret (fst (GitRepository.init path' st')) = true.
Proof.
  intros Hd Hd' Hsub Hok.
  apply (init_outcome path' names' st' Hd').
  intros m Hm. apply Hsub. by apply (init_outcome path names st Hd).
Qed.

Lemma validity_survives_more_entries_witness :
  is_Ret (fst (GitRepository.init "/r" Cases.mixed_st)) = true.
Proof.
  apply (validity_survives_more_entries "/m" Cases.minimal_entries Cases.minimal_st
           "/r" Cases.mixed_entries Cases.mixed_st).
  - reflexivity.
  - reflexivity.
  - intros m Hm. simpl in Hm.
    repeat (apply elem_of_cons in Hm as [->|Hm];
            [apply (bool_decide_unpack _); vm_compute; exact I|]).
    by apply elem_of_nil in Hm.
  - reflexivity.
Defined.

(** ** Building the router *)

(** X14. [GitDirectory.__init__]: when the content root is a directory the
    world is left alone and the router is returned; when it is not and
    auto-create is off, construction fails with [OSError] and the world is
    left alone; when it is not and auto-create is on, everything hangs on
    [os.makedirs]: the router is returned exactly when that call comes back,
    its [OSError] is passed on when it does not, and either way the
    directories are the ones [os.makedirs] leaves. A router that is returned
    carries the root and the auto-create flag it was given, and no
    construction adds an event to the trace. *)
Theorem router_init_outcome os_makedirs path auto
    (kwargs : gmap string GitDirectory.Hook) st :
  match dirs st !! path with
  | Some _ =>
      ∃ g, GitDirectory.init os_makedirs path auto kwargs st = (Ret g, st)
           ∧ GitDirectory.content_path g = path
           ∧ GitDirectory.auto_create g = auto
  | None =>
      if auto
      then ∃ r, GitDirectory.init os_makedirs path auto kwargs st
                = (r, mkState (snd (os_makedirs path (dirs st))) (trace st))
                ∧ if fst (os_makedirs path (dirs st))
                  then ∃ g, r = Ret g
                            ∧ GitDirectory.content_path g = path
                            ∧ GitDirectory.auto_create g = true
                  else r = Raise (OSError path)
      else GitDirectory.init os_makedirs path auto kwargs st
           = (Raise (OSError path), st)
  end.
Proof.
  unfold GitDirectory.init, bind, isdir, makedirs, raise, ret.
  destruct (dirs st !! path) as [names|] eqn:Hd.
  - rewrite bool_decide_eq_true_2 by eauto. simpl. eauto.
  - rewrite bool_decide_eq_false_2 by (by intros [? ?]). simpl.
    destruct auto; simpl; [|done].
    destruct (os_makedirs path (dirs st)) as [[] d]; simpl.
    + eexists. split; [reflexivity|]. eexists. by repeat split.
    + eexists. by split.
Qed.

(** The construction on a missing root, on a file system that makes the
    directories and on one that refuses. *)
Example router_init_on_missing_root :
  (∃ g, GitDirectory.init Cases.obliging_makedirs "/srv/git" true ∅ Cases.empty_st
        = (Ret g, mkState (<["/srv/git" := []]> (<["/srv" := ["git"] ]> ∅)) []))
  ∧ GitDirectory.init Cases.refusing_makedirs "/srv/git" true ∅ Cases.empty_st
    = (Raise (OSError "/srv/git"), Cases.empty_st).
Proof. split; [eexists|]; reflexivity. Qed.

(** X15. No keyword option ever reaches the post-create hook: after every
    construction it is the no-op of the class. The pre-create hook is the
    [post_clone_hook] option when there is one, else the [pre_clone_hook]
    option when there is one, else the no-op. *)
Theorem router_hooks_after_init os_makedirs path auto kwargs st g st' :
  GitDirectory.init os_makedirs path auto kwargs st = (Ret g, st') →
  GitDirectory.post_clone_hook g = GitDirectory.default_hook
  ∧ GitDirectory.pre_clone_hook g
    = match kwargs !! "post_clone_hook", kwargs !! "pre_clone_hook" with
      | Some h, _ => h
      | None, Some h => h
      | None, None => GitDirectory.default_hook
      end.
Proof.
  intros Hinit. apply init_attrs in Hinit.
  unfold GitDirectory.post_clone_hook, GitDirectory.pre_clone_hook.
  rewrite Hinit.
  destruct (kwargs !! "post_clone_hook"), (kwargs !! "pre_clone_hook");
    rewrite ?lookup_insert_eq, ?lookup_insert_ne, ?lookup_empty by done; done.
Qed.

Lemma router_hooks_after_init_witness :
  ∃ g,
    fst (GitDirectory.init Cases.refusing_makedirs "/srv/git" false
           {["pre_clone_hook" := Sample.vetoing_hook]} Sample.st) = Ret g
    ∧ GitDirectory.post_clone_hook g = GitDirectory.default_hook
    ∧ GitDirectory.pre_clone_hook g = Sample.vetoing_hook.
Proof.
  eexists. split; [reflexivity|].
  destruct (router_hooks_after_init Cases.refusing_makedirs "/srv/git" false
              {["pre_clone_hook" := Sample.vetoing_hook]} Sample.st _ Sample.st
              eq_refl) as [Hpost Hpre].
  split; [exact Hpost | exact Hpre].
Defined.

(** ** The router in front of the handler *)







Section RouterCases.

Variables (self : GitDirectory.t) (env : Env) (environ request : Request)
          (st : State) (name : string).
Hypothesis popped : path_info_pop environ = (Some name, request).
Hypothesis dot_git : Py.endswith ".git" name = true.
Hypothesis inside :
  Py.contains (GitDirectory.content_path self)
    (realpath env (Py.path_join (GitDirectory.content_path self) name)) = true.

(** For a repository that is there, the router is the handler. *)
Lemma call_existing_repository app :
  GitRepository.init
    (realpath env (Py.path_join (GitDirectory.content_path self) name)) st
  = (Ret app, st) →
  GitDirectory.call self env environ st = GitRepository.call app env request st.
Proof.
  intros Hinit. unfold GitDirectory.call. rewrite popped, dot_git. simpl.
  rewrite inside. simpl. by rewrite Hinit.
Qed.

(** For a directory that is no repository, the second construction fails as
    the first did. *)
Lemma call_plain_directory names :
  dirs st !! realpath env (Py.path_join (GitDirectory.content_path self) name)
  = Some names →
  is_Ret (fst (GitRepository.init
                 (realpath env (Py.path_join (GitDirectory.content_path self) name))
                 st)) = false →
  GitDirectory.call self env environ st
  = (Raise (AssertionError
              (realpath env (Py.path_join (GitDirectory.content_path self) name))),
     st).
Proof.
  intros Hd Hbad. unfold GitDirectory.call. rewrite popped, dot_git. simpl.
  rewrite inside. simpl.
  unfold GitDirectory.delegate, bind, isdir.
  revert Hbad. unfold GitRepository.init, bind, listdir. rewrite Hd.
  case_decide; simpl; [done|]. intros _.
  rewrite bool_decide_eq_true_2 by eauto.
  unfold listdir. rewrite Hd. by case_decide.
Qed.

End RouterCases.

(** X17. For a request whose name ends in [.git] and resolves, inside the
    root, to a directory with the five markers, the router answers what the
    repository handler answers to the request with the name taken off its
    path; the handler is built for the resolved path, and the router itself
    adds no effect. *)
Theorem router_delegates_to_handler self env environ st name request names :
  path_info_pop environ = (Some name, request) →
  Py.endswith ".git" name = true →
  let cp := realpath env (Py.path_join (GitDirectory.content_path self) name) in
  Py.contains (GitDirectory.content_path self) cp = true →
  dirs st !! cp = Some names →
  (∀ m, m ∈ ["config"; "head"; "info"; "objects"; "refs"] → m ∈ Py.lower <$> names) →
  GitDirectory.call self env environ st
  = GitRepository.call
      (GitRepository.mk cp
         ["application/x-git-upload-pack-result";
          "application/x-git-receive-pack-result"])
      env request st.
Proof.
  intros Hpop Hs cp Hc Hd Hcov.
  apply (call_existing_repository self env environ request st name Hpop Hs Hc).
  fold cp. unfold GitRepository.init, bind, listdir. rewrite Hd.
  assert (Hiff : GitRepository.git_folder_signature
                   ∩ list_to_set (Py.lower <$> names)
                 = GitRepository.git_folder_signature).
  { apply signature_covered. intros m Hm.
    by apply (elem_of_list_to_set (C := gset string)), Hcov. }
  by case_decide.
Qed.

Lemma router_delegates_to_handler_witness :
  GitDirectory.call Sample.router (Sample.env 0)
    (Sample.request "/a.git/git-upload-pack" ∅ ["application/x-git-upload-pack-result"])
    Sample.st
  = GitRepository.call Sample.repo (Sample.env 0)
      (Sample.request "/git-upload-pack" ∅ ["application/x-git-upload-pack-result"])
      Sample.st.
Proof.
  apply (router_delegates_to_handler Sample.router (Sample.env 0)
           (Sample.request "/a.git/git-upload-pack" ∅
              ["application/x-git-upload-pack-result"])
           Sample.st "a.git"
           (Sample.request "/git-upload-pack" ∅ ["application/x-git-upload-pack-result"])
           Sample.bare_entries eq_refl eq_refl eq_refl eq_refl).
  intros m Hm.
  repeat (apply elem_of_cons in Hm as [->|Hm];
          [apply (bool_decide_unpack _); vm_compute; exact I|]).
  by apply elem_of_nil in Hm.
Defined.

(** X18. A directory that is there but lacks a marker is not served: the
    router constructs the handler a second time, the same assertion fails
    again, outside any [try], and the router raises [AssertionError] instead
    of answering. Nothing is created or started, whatever auto-create and
    the Accept header say. *)
Theorem router_raises_on_plain_directory self env environ st name request names :
  path_info_pop environ = (Some name, request) →
  Py.endswith ".git" name = true →
  let cp := realpath env (Py.path_join (GitDirectory.content_path self) name) in
  Py.contains (GitDirectory.content_path self) cp = true →
  dirs st !! cp = Some names →
  ¬ (∀ m, m ∈ ["config"; "head"; "info"; "objects"; "refs"] → m ∈ Py.lower <$> names) →
  GitDirectory.call self env environ st = (Raise (AssertionError cp), st).
Proof.
  intros Hpop Hs cp Hc Hd Hcov.
  apply (call_plain_directory self env environ request st name Hpop Hs Hc names Hd).
  destruct (is_Ret _) eqn:Hok; [|done].
  exfalso. apply Hcov. by apply (init_outcome _ _ _ Hd).
Qed.

Lemma router_raises_on_plain_directory_witness :
  GitDirectory.call Sample.router (Sample.env 0)
    (Sample.request "/four.git/git-receive-pack" ∅
       ["application/x-git-receive-pack-result"]) Sample.st
  = (Raise (AssertionError "/srv/git/four.git"), Sample.st).
Proof.
  apply (router_raises_on_plain_directory Sample.router (Sample.env 0)
           (Sample.request "/four.git/git-receive-pack" ∅
              ["application/x-git-receive-pack-result"])
           Sample.st "four.git"
           (Sample.request "/git-receive-pack" ∅
              ["application/x-git-receive-pack-result"])
           ["config"; "HEAD"; "objects"; "refs"] eq_refl eq_refl eq_refl eq_refl).
  intros Hall.
  assert (Hinfo : "info" ∈ Py.lower <$> ["config"; "HEAD"; "objects"; "refs"]).
  { apply Hall. apply list_elem_of_In. simpl. tauto. }
  simpl in Hinfo. apply list_elem_of_In in Hinfo. simpl in Hinfo.
  destruct Hinfo as [H|[H|[H|[H|[]]]]]; vm_compute in H; discriminate.
Defined.

(** X19. A request with an empty path has no name to take: [path_info_pop]
    yields [None], and the router raises [AttributeError] instead of
    answering. The world is untouched. *)
Theorem router_raises_on_empty_path self env environ st :
  path_info environ = EmptyString →
  GitDirectory.call self env environ st = (Raise AttributeError, st).
Proof.
  intros Hpath. unfold GitDirectory.call, path_info_pop. by rewrite Hpath.
Qed.

Lemma router_raises_on_empty_path_witness :
  GitDirectory.call Sample.router (Sample.env 0) (Sample.request "" ∅ []) Sample.st
  = (Raise AttributeError, Sample.st).
Proof.
  apply (router_raises_on_empty_path Sample.router (Sample.env 0)
           (Sample.request "" ∅ []) Sample.st).
  reflexivity.
Defined.

(** X20. With auto-create off the hooks are never called: two routers over
    the same root that differ in their hooks only answer every request alike
    and leave the same world behind. *)
Theorem hooks_unused_without_auto_create root attrs attrs' env environ st :
  GitDirectory.call (GitDirectory.mk root false attrs) env environ st
  = GitDirectory.call (GitDirectory.mk root false attrs') env environ st.
Proof.
  unfold GitDirectory.call. simpl.
  destruct (path_info_pop environ) as [[name|] request]; [|done].
  destruct (negb (Py.endswith ".git" name)); [done|].
  destruct (negb (Py.contains root _)); [done|].
  by destruct (GitRepository.init _ st) as [[app|[]] st1].
Qed.

(** ** The factories *)

Lemma router_init_fields os_makedirs path auto
    (kwargs : gmap string GitDirectory.Hook) st g st' :
  GitDirectory.init os_makedirs path auto kwargs st = (Ret g, st') →
  GitDirectory.content_path g = path
  ∧ GitDirectory.auto_create g = auto
  ∧ (auto = false → st' = st).
Proof.
  unfold GitDirectory.init, bind, isdir, makedirs, raise, ret.
  destruct (bool_decide _); simpl.
  - by intros [= <- <-].
  - destruct auto; [|done].
    destruct (os_makedirs path (dirs st)) as [[] d]; [|done].
    by intros [= <- <-].
Qed.

(** X21. A router made by [make_dir_app] without an [auto_create] argument
    never creates anything, whatever the file system would do on
    [os.makedirs]: the root is the [content_path] of the global
    configuration when it has one, else the argument, else the empty path;
    making the router fails with [OSError], the world left alone, when the
    root is no directory, and leaves the world alone when it is; and the
    router answers Not Found, with the world untouched, to every request for
    a repository that is not there, a push included. *)
Theorem make_dir_app_default_never_creates os_makedirs global_config content_path
    local_config st :
  let root :=
    match global_config !! "content_path" with
    | Some p => p
    | None => default EmptyString content_path
    end in
  (dirs st !! root = None →
     make_dir_app os_makedirs global_config content_path None local_config st
     = (Raise (OSError root), st))
  ∧ ∀ g st',
      make_dir_app os_makedirs global_config content_path None local_config st
      = (Ret g, st') →
      st' = st
      ∧ GitDirectory.content_path g = root
      ∧ ∀ env environ name request s,
          path_info_pop environ = (Some name, request) →
          Py.endswith ".git" name = true →
          Py.contains root (realpath env (Py.path_join root name)) = true →
          dirs s !! realpath env (Py.path_join root name) = None →
          GitDirectory.call g env environ s = (Ret (HTTPError HTTPNotFound), s).
Proof.
  intros root. unfold make_dir_app. fold root. simpl. split.
  - intros Hd. unfold GitDirectory.init, bind, isdir, raise.
    by rewrite Hd, bool_decide_eq_false_2 by (by intros [? ?]).
  - intros g st' Hinit.
    apply router_init_fields in Hinit as (Hpath & Hauto & Hst).
    split; [by apply Hst|]. split; [done|].
    intros env environ name request s Hpop Hs Hc Hd.
    rewrite (call_missing g env environ request s name Hpop Hs
               (realpath env (Py.path_join root name)))
      by (rewrite ?Hpath; done).
    by rewrite Hauto.
Qed.

Lemma make_dir_app_default_never_creates_witness :
  make_dir_app Cases.obliging_makedirs ∅ (Some "/srv/git") None ∅ Cases.empty_st
  = (Raise (OSError "/srv/git"), Cases.empty_st)
  ∧ ∃ g,
      make_dir_app Cases.obliging_makedirs {["content_path" := "/srv/git"]}
        (Some "/elsewhere") None ∅ Sample.st
      = (Ret g, Sample.st)
      ∧ GitDirectory.call g (Sample.env 0)
          (Sample.request "/new.git/git-receive-pack" ∅
             ["application/x-git-receive-pack-result"]) Sample.st
        = (Ret (HTTPError HTTPNotFound), Sample.st).
Proof.
  split.
  - exact (proj1 (make_dir_app_default_never_creates Cases.obliging_makedirs ∅
                    (Some "/srv/git") ∅ Cases.empty_st) eq_refl).
  - eexists. split; [reflexivity|].
    assert (Hmade : make_dir_app Cases.obliging_makedirs
                      {["content_path" := "/srv/git"]} (Some "/elsewhere")
                      None ∅ Sample.st
                    = (Ret (GitDirectory.mk "/srv/git" false ∅), Sample.st))
      by reflexivity.
    destruct (proj2 (make_dir_app_default_never_creates Cases.obliging_makedirs
                       {["content_path" := "/srv/git"]} (Some "/elsewhere") ∅ Sample.st)
                _ _ Hmade) as (_ & _ & Hcall).
    apply (Hcall (Sample.env 0)
             (Sample.request "/new.git/git-receive-pack" ∅
                ["application/x-git-receive-pack-result"])
             "new.git"
             (Sample.request "/git-receive-pack" ∅
                ["application/x-git-receive-pack-result"]) Sample.st);
      reflexivity.
Defined.

(** X22. [make_app] serves the [content_path] of the global configuration
    when it has one, else the argument, else the empty path. It never
    changes the world, whether it comes back or raises; it comes back with
    a handler exactly when that path is a directory with the five markers,
    and the handler is then one for that path. *)
Theorem make_app_needs_repository global_config content_path local_config st :
  let root :=
    match global_config !! "content_path" with
    | Some p => p
    | None => default EmptyString content_path
    end in
  snd (make_app global_config content_path local_config st) = st
  ∧ (is_Ret (fst (make_app global_config content_path local_config st)) = true
     ↔ ∃ names,
         dirs st !! root = Some names
         ∧ ∀ m, m ∈ ["config"; "head"; "info"; "objects"; "refs"]
                → m ∈ Py.lower <$> names)
  ∧ ∀ r, fst (make_app global_config content_path local_config st) = Ret r →
         GitRepository.content_path r = root.
Proof.
  intros root. unfold make_app. fold root.
  destruct (dirs st !! root) as [names|] eqn:Hd.
  - pose proof (init_outcome root names st Hd) as Hiff.
    revert Hiff. unfold GitRepository.init, bind, listdir. rewrite Hd.
    case_decide; simpl; intros Hiff.
    + split; [done|]. split; [|by intros r [= <-]].
      split; [intros _; exists names; split; [done|by apply Hiff]|done].
    + split; [done|]. split; [|done].
      split; [done|]. intros (names' & [= <-] & Hcov). by apply Hiff.
  - unfold GitRepository.init, bind, listdir. rewrite Hd. simpl.
    split; [done|]. split; [|done].
    split; [done|]. by intros (names & ? & _).
Qed.

Lemma make_app_needs_repository_witness :
  make_app {["content_path" := "/srv/git/a.git"]} (Some "/elsewhere") ∅ Sample.st
  = (Ret Sample.repo, Sample.st)
  ∧ make_app ∅ None ∅ Sample.st = (Raise (OSError EmptyString), Sample.st)
  ∧ make_app ∅ (Some "/srv/git/four.git") ∅ Sample.st
    = (Raise (AssertionError "/srv/git/four.git"), Sample.st)
  ∧ ∃ names,
      dirs Sample.st !! "/srv/git/a.git" = Some names
      ∧ ∀ m, m ∈ ["config"; "head"; "info"; "objects"; "refs"]
             → m ∈ Py.lower <$> names.
Proof.
  split; [reflexivity|]. split; [reflexivity|]. split; [reflexivity|].
  exact (proj1 (proj1 (proj2 (make_app_needs_repository
                                {["content_path" := "/srv/git/a.git"]}
                                (Some "/elsewhere") ∅ Sample.st))) eq_refl).
Defined.

(** ** A creation that leaves nothing behind *)

(** X23. The router does not look at what [git init] did: when the hooks
    come back and the resolved path is still no directory afterwards, as
    when the command could not run, constructing the handler fails on
    listing the path and the router raises [OSError] instead of answering.
    The failed [git init] stays in the trace. *)
Theorem failed_creation_raises self env environ st name request st1 st3 :
  path_info_pop environ = (Some name, request) →
  Py.endswith ".git" name = true →
  let cp := realpath env (Py.path_join (GitDirectory.content_path self) name) in
  Py.contains (GitDirectory.content_path self) cp = true →
  dirs st !! cp = None →
  GitDirectory.auto_create self = true →
  accept request "application/x-git-receive-pack-result" = true →
  GitDirectory.pre_clone_hook self cp request st = (Ret tt, st1) →
  GitDirectory.post_clone_hook self cp request
    (mkState (snd (shell env (GitDirectory.git_init_command cp) (dirs st1)))
       (trace st1 ++ [ShellCall (GitDirectory.git_init_command cp)]))
  = (Ret tt, st3) →
  dirs st3 !! cp = None →
  GitDirectory.call self env environ st = (Raise (OSError cp), st3).
Proof.
  intros Hpop Hs cp Hc Hd Hauto Hacc Hpre Hpost Hd3.
  rewrite (call_missing self env environ request st name Hpop Hs cp eq_refl Hc Hd).
  rewrite Hauto, Hacc. simpl.
  rewrite (create_completes self env cp request st st1 st3 Hpre)
    by (by rewrite subprocess_call_state).
  unfold GitDirectory.delegate, GitRepository.init, bind, listdir.
  by rewrite Hd3.
Qed.

Lemma failed_creation_raises_witness :
  GitDirectory.call Sample.router Sample.env_no_git
    (Sample.request "/other.git/git-receive-pack" ∅
       ["application/x-git-receive-pack-result"]) Sample.st
  = (Raise (OSError "/srv/git/other.git"),
     mkState (dirs Sample.st)
       [ShellCall (GitDirectory.git_init_command "/srv/git/other.git")]).
Proof.
  apply (failed_creation_raises Sample.router Sample.env_no_git
           (Sample.request "/other.git/git-receive-pack" ∅
              ["application/x-git-receive-pack-result"])
           Sample.st "other.git"
           (Sample.request "/git-receive-pack" ∅
              ["application/x-git-receive-pack-result"])
           Sample.st); reflexivity.
Defined.
